(** * GAP coreference scorer: a shallow embedding of [gap_scorer.py]

    The development follows the two source files of the repository:
    [constants.py] (the [Gender] enumeration, the pronoun table, the field
    names) and [gap_scorer.py] (the [Annotation] and [Scores] containers,
    [read_annotations], [calculate_scores], [make_scorecard], [run_scorer]).

    Modelling conventions.
    - Python [str] values are byte strings, here [string].
    - Python dictionaries are [gmap]s.  [collections.defaultdict(Annotation)]
      is a [gmap string Annotation] whose item access goes through
      [defaultdict_getitem], which stores the default on a miss.
    - Python integers are [Z].
    - Python floats are IEEE binary64 values.  The module [double] embeds
      [Scores.recall], [Scores.precision], [Scores.f1] and [make_scorecard]
      on the binary64 values of [SpecFloat], operation by operation:
      conversion of an integer operand, correctly rounded [*], [+] and [/],
      [OverflowError], [ZeroDivisionError], and [str.format] on the exact
      value of the double.  The definitions [recall], [precision], [f1] and
      [make_scorecard] outside that module are the same formulas over exact
      rationals ([Q]), evaluated without rounding; the statements that use
      them say so.
    - [print] appends a line to the standard output carried by the [Run]
      monad; a failed [assert] or a missing dictionary key ends the run with
      [Raises].
    - A file is given by its lines as [csv.reader] splits them into cells;
      [DictReader] names the cells after the field names and leaves a
      missing cell [None], on which [.lower()] raises. *)

From Stdlib Require Import ZArith QArith Qabs Qround Qpower String Ascii DecimalString Lia Lqa.
From Stdlib Require Import SpecFloat.
From stdpp Require Import base option list gmap strings.

Local Open Scope string_scope.
Local Open Scope Z_scope.

(** ** [constants.py] *)

Module constants.

Inductive Gender : Type := UNKNOWN | MASCULINE | FEMININE.

#[global] Instance Gender_eq_dec : EqDecision Gender.
Proof. solve_decision. Defined.

Definition Gender_value (g : Gender) : nat :=
  match g with UNKNOWN => 0%nat | MASCULINE => 1%nat | FEMININE => 2%nat end.

Definition Gender_of_value (n : nat) : option Gender :=
  match n with
  | O => Some UNKNOWN
  | S O => Some MASCULINE
  | S (S O) => Some FEMININE
  | _ => None
  end.

#[global] Instance Gender_countable : Countable Gender.
Proof.
  refine (inj_countable Gender_value Gender_of_value _).
  intros []; reflexivity.
Defined.

(** Mapping of (lowercased) pronoun form to gender value. *)
Definition PRONOUNS : gmap string Gender :=
  list_to_map
    [ ("she", FEMININE); ("her", FEMININE); ("hers", FEMININE);
      ("he", MASCULINE); ("his", MASCULINE); ("him", MASCULINE) ].

Definition GOLD_FIELDNAMES : list string :=
  [ "ID"; "Text"; "Pronoun"; "Pronoun-offset"; "A"; "A-offset"; "A-coref";
    "B"; "B-offset"; "B-coref"; "URL" ].

Definition SYSTEM_FIELDNAMES : list string := [ "ID"; "A-coref"; "B-coref" ].

End constants.
Export constants.

(** ** Python primitives used by the scorer *)

Module py.

(** [str.lower()] on a byte string: the ASCII capitals are mapped to the
    corresponding small letters, every other byte is kept. *)
Definition lower_ascii (c : ascii) : ascii :=
  let n := nat_of_ascii c in
  if ((65 <=? n) && (n <=? 90))%nat then ascii_of_nat (n + 32) else c.

Fixpoint lower (s : string) : string :=
  match s with
  | EmptyString => EmptyString
  | String c s' => String (lower_ascii c) (lower s')
  end.

(** Truth value of [None], [True], [False]. *)
Definition truthy (v : option bool) : bool :=
  match v with Some b => b | None => false end.

(** Truth value of an integer and of a float: false exactly at zero. *)
Definition truthy_int (n : Z) : bool := negb (n =? 0).
Definition truthy_float (x : Q) : bool := negb (Qeq_bool x 0).

Definition tab : string := String (ascii_of_nat 9) EmptyString.
Definition newline : string := String (ascii_of_nat 10) EmptyString.

(** ['{:d}'.format(n)] *)
Definition format_d (n : Z) : string := NilZero.string_of_int (Z.to_int n).

(** [sep.join(lines)] *)
Fixpoint join (sep : string) (lines : list string) : string :=
  match lines with
  | [] => ""
  | [l] => l
  | l :: ls => l ++ sep ++ join sep ls
  end.

(** The digits of [n], padded on the left with zeros to [width]. *)
Definition zero_pad (width : nat) (s : string) : string :=
  String.concat "" (repeat "0" (width - String.length s)) ++ s.

(** Nearest integer, ties to the even one. *)
Definition round_half_even (q : Q) : Z :=
  let fl := Qfloor q in
  let r := (q - inject_Z fl)%Q in
  match (r ?= 1 # 2)%Q with
  | Lt => fl
  | Gt => fl + 1
  | Eq => if Z.even fl then fl else fl + 1
  end.

(** ['{:.<prec>f}'.format(x)]: [x] rounded to [prec] decimals and printed
    in fixed-point notation, with a minus sign for a negative [x]. *)
Definition format_f (prec : nat) (x : Q) : string :=
  let scale := 10 ^ Z.of_nat prec in
  let n := round_half_even (Qabs x * inject_Z scale)%Q in
  let sign := if Qlt_le_dec x 0 then "-" else "" in
  let int_part := format_d (n / scale) in
  match prec with
  | O => sign ++ int_part
  | _ => sign ++ int_part ++ "." ++ zero_pad prec (format_d (n mod scale))
  end.

End py.

(** ** Rows, printed lines and exceptions *)

(** A row as [csv.DictReader] hands it to the scorer, restricted to the
    fields that are read: [row['ID']], [row['Pronoun']] (gold files only),
    [row['A-coref']] and [row['B-coref']].  A field is [None] when the line
    is too short to have the cell. *)
Record Row : Type := mkRow {
  ID : string;
  Pronoun : option string;
  A_coref : option string;
  B_coref : option string
}.

Inductive AssertDetail : Type :=
  | FromRow (row : Row)
  | Message (text : string).

Inductive Exception : Type :=
  | AssertionError (detail : AssertDetail)
  | AttributeError (attribute : string)
  | KeyError (key : option Gender)
  | OverflowError
  | ZeroDivisionError.

Inductive Outcome (A : Type) : Type :=
  | Returns (a : A)
  | Raises (e : Exception).
Arguments Returns {A} a.
Arguments Raises {A} e.

Record Run (A : Type) : Type := mkRun {
  stdout : list string;
  outcome : Outcome A
}.
Arguments mkRun {A} stdout outcome.
Arguments stdout {A} r.
Arguments outcome {A} r.

#[global] Instance Run_ret : MRet Run := λ A a, mkRun [] (Returns a).

#[global] Instance Run_bind : MBind Run := λ A B k m,
  match outcome m with
  | Returns a => let r := k a in mkRun (stdout m ++ stdout r) (outcome r)
  | Raises e => mkRun (stdout m) (Raises e)
  end.

Definition print (line : string) : Run unit := mkRun [line] (Returns tt).

Definition raise {A} (e : Exception) : Run A := mkRun [] (Raises e).

(** [assert cond, detail] *)
Definition assert (cond : bool) (detail : AssertDetail) : Run unit :=
  if cond then mret tt else raise (AssertionError detail).

(** [for x in xs: state = body(state, x)] *)
Fixpoint for_each {S X} (xs : list X) (body : S → X → Run S) (s : S) : Run S :=
  match xs with
  | [] => mret s
  | x :: xs' => s' ← body s x; for_each xs' body s'
  end.

(** [value.lower()], where [value] may be [None]. *)
Definition lower_method (value : option string) : Run string :=
  match value with
  | Some s => mret (py.lower s)
  | None => raise (AttributeError "lower")
  end.

(** ** [csv.DictReader] *)

(** The cell of the column called [name]. *)
Definition column (fieldnames : list string) (name : string)
    (cells : list string) : option string :=
  match list_find (λ f, f = name) fieldnames with
  | Some (i, _) => cells !! i
  | None => None
  end.

(** The dictionary of one line.  [DictReader] passes over the lines without
    cells; on any other line ['ID'], the first field name of both schemas,
    is bound to the first cell.  A field name with no cell is bound to
    [None]; so is ['Pronoun'] for a system line, whose schema has no such
    field and whose pronoun is never read. *)
Definition dict_row (fieldnames : list string) (cells : list string)
  : option Row :=
  match cells with
  | [] => None
  | example_id :: _ =>
      Some (mkRow example_id
              (column fieldnames "Pronoun" cells)
              (column fieldnames "A-coref" cells)
              (column fieldnames "B-coref" cells))
  end.

Definition DictReader (fieldnames : list string) (file : list (list string))
  : list Row :=
  omap (dict_row fieldnames) file.

(** ** [gap_scorer.py]: the containers *)

Record Annotation : Type := mkAnnotation {
  gender : option Gender;
  name_a_coref : option bool;
  name_b_coref : option bool
}.

(** [Annotation()] *)
Definition Annotation_init : Annotation := mkAnnotation None None None.

Definition set_gender (v : option Gender) (a : Annotation) : Annotation :=
  mkAnnotation v (name_a_coref a) (name_b_coref a).
Definition set_name_a_coref (v : option bool) (a : Annotation) : Annotation :=
  mkAnnotation (gender a) v (name_b_coref a).
Definition set_name_b_coref (v : option bool) (a : Annotation) : Annotation :=
  mkAnnotation (gender a) (name_a_coref a) v.

Record Scores : Type := mkScores {
  true_positives : Z;
  false_positives : Z;
  true_negatives : Z;
  false_negatives : Z
}.

(** [Scores()] *)
Definition Scores_init : Scores := mkScores 0 0 0 0.

Definition incr_true_positives (s : Scores) : Scores :=
  mkScores (true_positives s + 1) (false_positives s) (true_negatives s) (false_negatives s).
Definition incr_false_positives (s : Scores) : Scores :=
  mkScores (true_positives s) (false_positives s + 1) (true_negatives s) (false_negatives s).
Definition incr_true_negatives (s : Scores) : Scores :=
  mkScores (true_positives s) (false_positives s) (true_negatives s + 1) (false_negatives s).
Definition incr_false_negatives (s : Scores) : Scores :=
  mkScores (true_positives s) (false_positives s) (true_negatives s) (false_negatives s + 1).

Definition recall (self : Scores) : Q :=
  let numerator := true_positives self in
  let denominator := true_positives self + false_negatives self in
  if py.truthy_int denominator
  then (100 * inject_Z numerator / inject_Z denominator)%Q
  else 0%Q.

Definition precision (self : Scores) : Q :=
  let numerator := true_positives self in
  let denominator := true_positives self + false_positives self in
  if py.truthy_int denominator
  then (100 * inject_Z numerator / inject_Z denominator)%Q
  else 0%Q.

Definition f1 (self : Scores) : Q :=
  let recall := recall self in
  let precision := precision self in
  let numerator := (2 * precision * recall)%Q in
  let denominator := (precision + recall)%Q in
  if py.truthy_float denominator then (numerator / denominator)%Q else 0%Q.

(** ** [read_annotations] *)

(** [d[k]] on a [defaultdict(Annotation)]: a missing key is first bound to
    a fresh [Annotation()], which is returned. *)
Definition defaultdict_getitem (d : gmap string Annotation) (k : string)
  : gmap string Annotation * Annotation :=
  match d !! k with
  | Some a => (d, a)
  | None => (<[k := Annotation_init]> d, Annotation_init)
  end.

(** [d[k].field = v], the attribute assignment being [set]. *)
Definition defaultdict_setattr (d : gmap string Annotation) (k : string)
    (set : Annotation → Annotation) : gmap string Annotation :=
  let '(d', a) := defaultdict_getitem d k in <[k := set a]> d'.

Definition is_true (value : option string) : Run (option bool) :=
  lowered ← lower_method value;
  if decide (lowered = "true") then mret (Some true)
  else
    lowered ← lower_method value;
    if decide (lowered = "false") then mret (Some false)
    else _ ← print ("Unexpected label! " ++ default "None" value); mret None.

(** The body of [for row in reader]. *)
Definition read_row (is_gold : bool) (annotations : gmap string Annotation)
    (row : Row) : Run (gmap string Annotation) :=
  let example_id := ID row in
  if decide (is_Some (annotations !! example_id)) then
    _ ← print ("Multiple annotations for " ++ example_id);
    mret annotations
  else
    a ← is_true (A_coref row);
    let annotations := defaultdict_setattr annotations example_id (set_name_a_coref a) in
    b ← is_true (B_coref row);
    let annotations := defaultdict_setattr annotations example_id (set_name_b_coref b) in
    if is_gold then
      pronoun ← lower_method (Pronoun row);
      let g := default UNKNOWN (PRONOUNS !! pronoun) in
      _ ← assert (bool_decide (g ≠ UNKNOWN)) (FromRow row);
      mret (defaultdict_setattr annotations example_id (set_gender (Some g)))
    else mret annotations.

(** [for row in reader], from an empty [defaultdict(Annotation)]. *)
Definition read_rows (is_gold : bool) (reader : list Row)
  : Run (gmap string Annotation) :=
  for_each reader (read_row is_gold) ∅.

(** The rows [for row in reader] runs over: all of a system file, all but
    the first of a gold file. *)
Definition data_rows (file : list (list string)) (is_gold : bool) : list Row :=
  let fieldnames := if is_gold then GOLD_FIELDNAMES else SYSTEM_FIELDNAMES in
  let reader := DictReader fieldnames file in
  (* Skip the header line in the gold data *)
  if is_gold then tail reader else reader.

(** [file] holds the lines of the file [filename]. *)
Definition read_annotations (file : list (list string)) (is_gold : bool)
  : Run (gmap string Annotation) :=
  read_rows is_gold (data_rows file is_gold).

(** ** [calculate_scores] *)

(** [scores[key].<counter> += 1] *)
Definition incr_item (scores : gmap (option Gender) Scores) (key : option Gender)
    (incr : Scores → Scores) : Run (gmap (option Gender) Scores) :=
  match scores !! key with
  | Some s => mret (<[key := incr s]> scores)
  | None => raise (KeyError key)
  end.

(** The body of [for (gold, system) in [name_a_annotations, name_b_annotations]]. *)
Definition score_judgment (example_id : string) (key : option Gender)
    (scores : gmap (option Gender) Scores) (judgment : option bool * option bool)
  : Run (gmap (option Gender) Scores) :=
  let '(gold, system) := judgment in
  if decide (system = None) then
    _ ← print ("Missing output for " ++ example_id);
    incr_item scores key incr_false_negatives
  else if py.truthy gold && py.truthy system then
    incr_item scores key incr_true_positives
  else if negb (py.truthy gold) && py.truthy system then
    incr_item scores key incr_false_positives
  else if negb (py.truthy gold) && negb (py.truthy system) then
    incr_item scores key incr_true_negatives
  else if py.truthy gold && negb (py.truthy system) then
    incr_item scores key incr_false_negatives
  else mret scores.

(** The body of [for gender in [None, gold_annotation.gender]]. *)
Definition score_gender (example_id : string)
    (judgments : list (option bool * option bool))
    (scores : gmap (option Gender) Scores) (key : option Gender)
  : Run (gmap (option Gender) Scores) :=
  let scores :=
    if decide (is_Some (scores !! key)) then scores
    else <[key := Scores_init]> scores in
  for_each judgments (score_judgment example_id key) scores.

(** The body of [for example_id, gold_annotation in gold_annotations.iteritems()].
    The state is the [scores] dictionary together with the contents of the
    [system_annotations] dictionary, which item access may extend. *)
Definition score_example
    (state : gmap (option Gender) Scores * gmap string Annotation)
    (item : string * Annotation)
  : Run (gmap (option Gender) Scores * gmap string Annotation) :=
  let '(scores, system_annotations) := state in
  let '(example_id, gold_annotation) := item in
  let '(system_annotations, system_annotation) :=
    defaultdict_getitem system_annotations example_id in
  let name_a_annotations :=
    (name_a_coref gold_annotation, name_a_coref system_annotation) in
  let name_b_annotations :=
    (name_b_coref gold_annotation, name_b_coref system_annotation) in
  scores ← for_each [None; gender gold_annotation]
             (score_gender example_id [name_a_annotations; name_b_annotations])
             scores;
  mret (scores, system_annotations).

(** Returns the [scores] dictionary and the final contents of the
    [system_annotations] argument. *)
Definition calculate_scores (gold_annotations system_annotations : gmap string Annotation)
  : Run (gmap (option Gender) Scores * gmap string Annotation) :=
  for_each (map_to_list gold_annotations) score_example (∅, system_annotations).

(** ** [make_scorecard] *)

Definition display_names : list (option Gender * string) :=
  [ (None, "Overall"); (Some MASCULINE, "Masculine"); (Some FEMININE, "Feminine") ].

(** The three lines appended for one display category. *)
Definition scorecard_block (display_name : string) (gender_scores : Scores)
  : list string :=
  [ display_name ++ " recall: " ++ py.format_f 1 (recall gender_scores)
      ++ " precision: " ++ py.format_f 1 (precision gender_scores)
      ++ " f1: " ++ py.format_f 1 (f1 gender_scores);
    py.tab ++ py.tab ++ "tp " ++ py.format_d (true_positives gender_scores)
      ++ py.tab ++ "fp " ++ py.format_d (false_positives gender_scores);
    py.tab ++ py.tab ++ "fn " ++ py.format_d (false_negatives gender_scores)
      ++ py.tab ++ "tn " ++ py.format_d (true_negatives gender_scores) ].

(** The body of [for gender, display_name in display_names]. *)
Definition scorecard_step (scores : gmap (option Gender) Scores)
    (state : list string * gmap (option Gender) Q)
    (entry : option Gender * string)
  : Run (list string * gmap (option Gender) Q) :=
  let '(scorecard, bias_terms) := state in
  let '(g, display_name) := entry in
  let gender_scores := default Scores_init (scores !! g) in
  mret ((scorecard ++ scorecard_block display_name gender_scores)%list,
        <[g := f1 gender_scores]> bias_terms).

(** [bias_terms[key]] *)
Definition bias_term (bias_terms : gmap (option Gender) Q) (key : option Gender)
  : Run Q :=
  match bias_terms !! key with
  | Some x => mret x
  | None => raise (KeyError key)
  end.

(** ['Bias (F/M): {}\n'.format(bias)] *)
Definition bias_line (bias : string) : string :=
  "Bias (F/M): " ++ bias ++ py.newline.

Definition make_scorecard (scores : gmap (option Gender) Scores) : Run string :=
  '(scorecard, bias_terms) ← for_each display_names (scorecard_step scores) ([], ∅);
  (* [bias_terms[Gender.MASCULINE] and bias_terms[Gender.FEMININE]] *)
  m ← bias_term bias_terms (Some MASCULINE);
  both ← (if py.truthy_float m
          then f ← bias_term bias_terms (Some FEMININE); mret (py.truthy_float f)
          else mret false);
  bias ← (if both : bool
          then f ← bias_term bias_terms (Some FEMININE);
               m ← bias_term bias_terms (Some MASCULINE);
               mret (py.format_f 2 (f / m)%Q)
          else mret "-");
  mret (py.join py.newline (scorecard ++ [bias_line bias])%list).

(** ** [run_scorer] *)

Definition run_scorer (gold_tsv system_tsv : list (list string)) : Run string :=
  gold_annotations ← read_annotations gold_tsv true;
  _ ← assert (bool_decide (gold_annotations ≠ ∅)) (Message "No gold annotations read!");
  system_annotations ← read_annotations system_tsv false;
  _ ← assert (bool_decide (system_annotations ≠ ∅)) (Message "No system annotations read!");
  '(scores, _) ← calculate_scores gold_annotations system_annotations;
  make_scorecard scores.

(** ** [main] *)


(** ** The metrics and the scorecard in double precision *)

(** CPython evaluates [recall], [precision], [f1] and the bias ratio on IEEE
    binary64 values.  The definitions of this module follow it operation by
    operation on the binary64 values of [SpecFloat]: an integer operand is
    converted to the nearest double ([OverflowError] when there is none),
    [*], [+] and [/] round to nearest, ties to even, [/] raises
    [ZeroDivisionError] on a zero divisor, and [str.format] prints the exact
    value of the double, rounded half-even at the requested decimal. *)
Module double.

Definition prec : Z := 53.
Definition emax : Z := 1024.

Definition is_zero (x : spec_float) : bool :=
  match x with S754_zero _ => true | _ => false end.

Definition is_infinite (x : spec_float) : bool :=
  match x with S754_infinity _ => true | _ => false end.

(** The double nearest to the integer [n], an infinity when [n] is beyond
    the largest double. *)
Definition of_int (n : Z) : spec_float := binary_normalize prec emax n 0 false.

(** The conversion of an integer operand of [*] or [/]. *)
Definition float_of_int (n : Z) : Run spec_float :=
  let x := of_int n in
  if is_infinite x then raise OverflowError else mret x.

(** [x * y] and [x + y] on floats *)
Definition mul (x y : spec_float) : spec_float := SFmul prec emax x y.
Definition add (x y : spec_float) : spec_float := SFadd prec emax x y.

(** [x / y] on floats *)
Definition truediv (x y : spec_float) : Run spec_float :=
  if is_zero y then raise ZeroDivisionError else mret (SFdiv prec emax x y).

(** Truth value of a float: false exactly at [0.0] and [-0.0]. *)
Definition truthy_float (x : spec_float) : bool := negb (is_zero x).

(** The literals [100.0], which is 7036874417766400 * 2^-46, and [0.0]. *)
Definition hundred : spec_float := S754_finite false 7036874417766400 (-46).
Definition zero : spec_float := S754_zero false.

Definition recall (self : Scores) : Run spec_float :=
  let numerator := true_positives self in
  let denominator := true_positives self + false_negatives self in
  if py.truthy_int denominator then
    n ← float_of_int numerator;
    let product := mul hundred n in
    d ← float_of_int denominator;
    truediv product d
  else mret zero.

Definition precision (self : Scores) : Run spec_float :=
  let numerator := true_positives self in
  let denominator := true_positives self + false_positives self in
  if py.truthy_int denominator then
    n ← float_of_int numerator;
    let product := mul hundred n in
    d ← float_of_int denominator;
    truediv product d
  else mret zero.

Definition f1 (self : Scores) : Run spec_float :=
  recall ← recall self;
  precision ← precision self;
  two ← float_of_int 2;
  let numerator := mul (mul two precision) recall in
  let denominator := add precision recall in
  if truthy_float denominator then truediv numerator denominator else mret zero.

(** The rational number a finite double stands for. *)
Definition to_Q (x : spec_float) : Q :=
  match x with
  | S754_finite s m e =>
      ((if s then -1 else 1) * inject_Z (Z.pos m) * 2 ^ e)%Q
  | _ => 0%Q
  end.

(** ['{:.<decimals>f}'.format(x)] *)
Definition format_f (decimals : nat) (x : spec_float) : string :=
  match x with
  | S754_nan => "nan"
  | S754_infinity s => if s then "-inf" else "inf"
  | S754_zero s => (if s then "-" else "") ++ py.format_f decimals 0
  | S754_finite _ _ _ => py.format_f decimals (to_Q x)
  end.

(** The three lines appended for one display category. *)
Definition scorecard_block (display_name : string) (gender_scores : Scores)
    (recall precision f1 : spec_float) : list string :=
  [ display_name ++ " recall: " ++ format_f 1 recall
      ++ " precision: " ++ format_f 1 precision
      ++ " f1: " ++ format_f 1 f1;
    py.tab ++ py.tab ++ "tp " ++ py.format_d (true_positives gender_scores)
      ++ py.tab ++ "fp " ++ py.format_d (false_positives gender_scores);
    py.tab ++ py.tab ++ "fn " ++ py.format_d (false_negatives gender_scores)
      ++ py.tab ++ "tn " ++ py.format_d (true_negatives gender_scores) ].

(** The body of [for gender, display_name in display_names]. *)
Definition scorecard_step (scores : gmap (option Gender) Scores)
    (state : list string * gmap (option Gender) spec_float)
    (entry : option Gender * string)
  : Run (list string * gmap (option Gender) spec_float) :=
  let '(scorecard, bias_terms) := state in
  let '(g, display_name) := entry in
  let gender_scores := default Scores_init (scores !! g) in
  recall ← recall gender_scores;
  precision ← precision gender_scores;
  f1 ← f1 gender_scores;
  let bias_terms := <[g := f1]> bias_terms in
  mret ((scorecard
         ++ scorecard_block display_name gender_scores recall precision f1)%list,
        bias_terms).

(** [bias_terms[key]] *)
Definition bias_term (bias_terms : gmap (option Gender) spec_float)
    (key : option Gender) : Run spec_float :=
  match bias_terms !! key with
  | Some x => mret x
  | None => raise (KeyError key)
  end.

Definition make_scorecard (scores : gmap (option Gender) Scores) : Run string :=
  '(scorecard, bias_terms) ← for_each display_names (scorecard_step scores) ([], ∅);
  (* [bias_terms[Gender.MASCULINE] and bias_terms[Gender.FEMININE]] *)
  m ← bias_term bias_terms (Some MASCULINE);
  both ← (if truthy_float m
          then f ← bias_term bias_terms (Some FEMININE); mret (truthy_float f)
          else mret false);
  bias ← (if both : bool
          then f ← bias_term bias_terms (Some FEMININE);
               m ← bias_term bias_terms (Some MASCULINE);
               ratio ← truediv f m;
               mret (format_f 2 ratio)
          else mret "-");
  mret (py.join py.newline (scorecard ++ [bias_line bias])%list).

End double.

(** ** Vocabulary of the statements *)

(** The four confusion-matrix buckets and the counter each one stands for. *)
Inductive Bucket : Type := TP | FP | TN | FN.

Definition bump (b : Bucket) (s : Scores) : Scores :=
  match b with
  | TP => incr_true_positives s
  | FP => incr_false_positives s
  | TN => incr_true_negatives s
  | FN => incr_false_negatives s
  end.

(** The table of the specification, for a gold value that is present. *)
Definition bucket_table (gold : bool) (system : option bool) : Bucket :=
  match system, gold with
  | None, _ => FN
  | Some true, true => TP
  | Some true, false => FP
  | Some false, false => TN
  | Some false, true => FN
  end.

(** What a lookup in a [defaultdict(Annotation)] yields. *)
Definition sys_get (sys : gmap string Annotation) (id : string) : Annotation :=
  default Annotation_init (sys !! id).

(** The tally stored under [key], a zero tally when there is none. *)
Definition tally (scores : gmap (option Gender) Scores) (key : option Gender)
  : Scores :=
  default Scores_init (scores !! key).

Definition Scores_plus (x y : Scores) : Scores :=
  mkScores (true_positives x + true_positives y)
           (false_positives x + false_positives y)
           (true_negatives x + true_negatives y)
           (false_negatives x + false_negatives y).

Definition Scores_scale (n : Z) (x : Scores) : Scores :=
  mkScores (n * true_positives x) (n * false_positives x)
           (n * true_negatives x) (n * false_negatives x).

(** The bucket of a judgment whose gold value may be absent. *)
Definition bucket_of (judgment : option bool * option bool) : Bucket :=
  bucket_table (py.truthy (fst judgment)) (snd judgment).

Definition judgments_of (gold_annotation system_annotation : Annotation)
  : list (option bool * option bool) :=
  [ (name_a_coref gold_annotation, name_a_coref system_annotation);
    (name_b_coref gold_annotation, name_b_coref system_annotation) ].

(** The lines printed while one judgment, resp. one example, is scored
    against one tally. *)
Definition missing_line (id : string) (judgment : option bool * option bool)
  : list string :=
  match snd judgment with
  | None => ["Missing output for " ++ id]
  | Some _ => []
  end.

Definition missing_lines (id : string) (js : list (option bool * option bool))
  : list string :=
  flat_map (missing_line id) js.

(** What the two judgments of an example add to a tally. *)
Definition example_delta (js : list (option bool * option bool)) : Scores :=
  foldr (λ j acc, Scores_plus (bump (bucket_of j) Scores_init) acc) Scores_init js.

(** How often the tally under [key] is visited for an example whose gold
    gender is [g]: the loop runs over [[None, g]]. *)
Definition visits (key g : option Gender) : Z :=
  (if decide (key = None) then 1 else 0) + (if decide (key = g) then 1 else 0).

(** The lines printed for one example, and its share in the tally of [key],
    for a system dictionary read through [get]. *)
Definition example_lines (get : string → Annotation) (item : string * Annotation)
  : list string :=
  let js := judgments_of item.2 (get item.1) in
  (missing_lines item.1 js ++ missing_lines item.1 js)%list.

Definition contribution (key : option Gender) (get : string → Annotation)
    (item : string * Annotation) : Scores :=
  Scores_scale (visits key (gender item.2))
    (example_delta (judgments_of item.2 (get item.1))).

Definition Scores_sum (l : list Scores) : Scores := foldr Scores_plus Scores_init l.

(** The sum of the tallies stored under a specific gender, i.e. under any
    key other than [None]. *)
Definition gender_specific_total (scores : gmap (option Gender) Scores) : Scores :=
  Scores_sum (map snd (filter (λ kv, kv.1 ≠ None) (map_to_list scores))).

(** Two gold examples and a system output that misses one of them. *)
Definition gold_two : gmap string Annotation :=
  <[ "1" := mkAnnotation (Some FEMININE) (Some true) (Some false) ]>
  (<[ "2" := mkAnnotation (Some MASCULINE) (Some false) (Some true) ]> ∅).

Definition system_one : gmap string Annotation :=
  <[ "1" := mkAnnotation None (Some true) (Some true) ]> ∅.

(** The number of judgments a tally has counted, and the number of system
    judgments of an annotation that are absent. *)
Definition counted (s : Scores) : Z :=
  true_positives s + false_positives s + true_negatives s + false_negatives s.

Definition missing_judgments (a : Annotation) : Z :=
  (if name_a_coref a is None then 1 else 0)
  + (if name_b_coref a is None then 1 else 0).

(** The value a coref field stands for, and the line printed when it stands
    for none. *)
Definition coref_value (value : string) : option bool :=
  if decide (py.lower value = "true") then Some true
  else if decide (py.lower value = "false") then Some false
  else None.

Definition label_lines (value : string) : list string :=
  match coref_value value with
  | Some _ => []
  | None => ["Unexpected label! " ++ value]
  end.

(** The lower-cased pronoun of the row is not a key of [PRONOUNS]. *)
Definition unknown_pronoun (row : Row) : Prop :=
  ∃ pronoun, Pronoun row = Some pronoun ∧ PRONOUNS !! py.lower pronoun = None.

(** What reading a row with a fresh ID raises, if anything: a field that is
    read is missing, or the pronoun of a gold row is unknown. *)
Definition row_exception (is_gold : bool) (row : Row) : option Exception :=
  match A_coref row, B_coref row with
  | Some _, Some _ =>
      if is_gold then
        match Pronoun row with
        | Some pronoun =>
            if decide (PRONOUNS !! py.lower pronoun = None)
            then Some (AssertionError (FromRow row))
            else None
        | None => Some (AttributeError "lower")
        end
      else None
  | _, _ => Some (AttributeError "lower")
  end.

(** The lines reading a row with a fresh ID prints. *)
Definition row_lines (row : Row) : list string :=
  match A_coref row with
  | Some a =>
      (label_lines a
       ++ match B_coref row with Some b => label_lines b | None => [] end)%list
  | None => []
  end.

(** The annotation a row is recorded as. *)
Definition row_annotation (is_gold : bool) (row : Row) : Annotation :=
  mkAnnotation
    (if is_gold
     then (λ pronoun, default UNKNOWN (PRONOUNS !! py.lower pronoun)) <$> Pronoun row
     else None)
    (A_coref row ≫= coref_value)
    (B_coref row ≫= coref_value).

(** The row at position [i] carries an ID that no earlier row carries. *)
Definition first_seen (rows : list Row) (i : nat) (row : Row) : Prop :=
  rows !! i = Some row ∧ ID row ∉ (ID <$> take i rows).

(** Some first-seen row has an unknown pronoun, resp. raises. *)
Definition unknown_first_seen (rows : list Row) : Prop :=
  ∃ i row, first_seen rows i row ∧ unknown_pronoun row.

Definition failing_first_seen (is_gold : bool) (rows : list Row) : Prop :=
  ∃ i row, first_seen rows i row ∧ is_Some (row_exception is_gold row).

(** The first row with the given ID. *)
Definition first_row (id : string) (rows : list Row) : option Row :=
  find (λ r, bool_decide (ID r = id)) rows.

Definition raises {A} (r : Run A) : Prop := ∃ e, outcome r = Raises e.

(** The row with its coref fields, where present, replaced. *)
Definition with_corefs (relabel : Row → string * string) (row : Row) : Row :=
  mkRow (ID row) (Pronoun row)
    ((λ _, (relabel row).1) <$> A_coref row)
    ((λ _, (relabel row).2) <$> B_coref row).

(** The text of the last line, from the two F1 values. *)
Definition bias_text (masculine_f1 feminine_f1 : Q) : string :=
  if py.truthy_float masculine_f1 && py.truthy_float feminine_f1
  then py.format_f 2 (feminine_f1 / masculine_f1)%Q
  else "-".

(** The line of a gold file for an example, and the header line. *)
Definition gold_line (id pronoun a_coref b_coref : string) : list string :=
  [ id; "Some text."; pronoun; "5"; "Alice"; "0"; a_coref; "Carol"; "11";
    b_coref; "http://example.org" ].

Definition gold_header : list string := GOLD_FIELDNAMES.

(** A gold file whose third line repeats the ID of the second and carries a
    pronoun that is not in the table, and a system file for it. *)
Definition gold_repeated : list (list string) :=
  [ gold_header;
    gold_line "1" "she" "TRUE" "FALSE";
    gold_line "1" "xyz" "TRUE" "FALSE" ].

Definition system_single : list (list string) := [ [ "1"; "TRUE"; "FALSE" ] ].

(** A gold file with one example, and a system file whose only line lacks
    the B-coref cell. *)
Definition gold_single : list (list string) :=
  [ gold_header; gold_line "1" "she" "TRUE" "FALSE" ].

Definition system_short : list (list string) := [ [ "1"; "TRUE" ] ].

(** All four counters are non-negative. *)
Definition nonnegative (s : Scores) : Prop :=
  0 ≤ true_positives s ∧ 0 ≤ false_positives s
  ∧ 0 ≤ true_negatives s ∧ 0 ≤ false_negatives s.

(** The number of gold examples whose gender is [g]. *)
Definition examples_of (g : option Gender) (gold : gmap string Annotation) : Z :=
  Z.of_nat (length (filter (λ item, gender item.2 = g) (map_to_list gold))).

(** The number of visits the tally of [key] gets from a list of examples. *)
Definition total_visits (key : option Gender) (l : list (string * Annotation)) : Z :=
  foldr (λ item acc, visits key (gender item.2) + acc) 0 l.

(** The system dictionary has, for every gold example, the two judgments of
    the gold annotation, both present. *)
Definition agrees_with (gold system : gmap string Annotation) : Prop :=
  ∀ id g, gold !! id = Some g →
    ∃ s, system !! id = Some s
         ∧ name_a_coref s = name_a_coref g ∧ name_b_coref s = name_b_coref g
         ∧ is_Some (name_a_coref g) ∧ is_Some (name_b_coref g).

(** The three metrics of a tally in double precision, when none of them
    raises. *)
Definition measured (s : Scores) (r p f : spec_float) : Prop :=
  double.recall s = mkRun [] (Returns r)
  ∧ double.precision s = mkRun [] (Returns p)
  ∧ double.f1 s = mkRun [] (Returns f).

(** A dictionary of tallies with an overall, a masculine and a feminine
    entry. *)
Definition scores_sample : gmap (option Gender) Scores :=
  <[ None := mkScores 15 27 11 20 ]>
  (<[ Some MASCULINE := mkScores 12 18 5 13 ]>
   (<[ Some FEMININE := mkScores 3 9 6 7 ]> ∅)).

(** ** Lemmas on the monad and on the loops *)

Lemma Scores_eq (x y : Scores) :
  true_positives x = true_positives y →
  false_positives x = false_positives y →
  true_negatives x = true_negatives y →
  false_negatives x = false_negatives y →
  x = y.
Proof. destruct x, y; simpl; congruence. Qed.

Lemma bump_plus (b : Bucket) (s : Scores) :
  bump b s = Scores_plus s (bump b Scores_init).
Proof. destruct b, s; apply Scores_eq; simpl; lia. Qed.

Lemma Scores_plus_zero (s : Scores) : Scores_plus s Scores_init = s.
Proof. destruct s; apply Scores_eq; simpl; lia. Qed.

Lemma Scores_plus_assoc (x y z : Scores) :
  Scores_plus (Scores_plus x y) z = Scores_plus x (Scores_plus y z).
Proof. apply Scores_eq; simpl; lia. Qed.

Lemma Scores_plus_comm (x y : Scores) : Scores_plus x y = Scores_plus y x.
Proof. apply Scores_eq; simpl; lia. Qed.

Lemma bind_returns {A B} (out : list string) (a : A) (k : A → Run B) :
  mkRun out (Returns a) ≫= k = mkRun (out ++ stdout (k a)) (outcome (k a)).
Proof. reflexivity. Qed.

(** *** One judgment, one tally, one example *)

Lemma score_judgment_spec id key scores s j :
  scores !! key = Some s →
  score_judgment id key scores j
  = mkRun (missing_line id j) (Returns (<[key := bump (bucket_of j) s]> scores)).
Proof.
  intros Hs. destruct j as [gold system].
  unfold score_judgment, incr_item, missing_line, bucket_of. rewrite Hs.
  destruct system as [[]|], gold as [[]|]; reflexivity.
Qed.

Lemma score_gender_spec id js scores key :
  score_gender id js scores key
  = mkRun (missing_lines id js)
      (Returns (<[key := Scores_plus (tally scores key) (example_delta js)]> scores)).
Proof.
  unfold score_gender, tally.
  assert (Hgen : ∀ sc s, sc !! key = Some s →
    for_each js (score_judgment id key) sc
    = mkRun (missing_lines id js)
        (Returns (<[key := Scores_plus s (example_delta js)]> sc))).
  { induction js as [|j js IH]; intros sc s Hs; simpl.
    - rewrite Scores_plus_zero, insert_id by done. reflexivity.
    - rewrite (score_judgment_spec _ _ _ _ _ Hs), bind_returns.
      rewrite (IH _ (bump (bucket_of j) s)) by apply lookup_insert_eq.
      simpl. rewrite insert_insert_eq. do 3 f_equal.
      rewrite (bump_plus _ s). apply Scores_plus_assoc. }
  case_decide as Hk.
  - destruct Hk as [s Hs]. rewrite Hs. simpl. by apply Hgen.
  - apply eq_None_not_Some in Hk. rewrite Hk. simpl.
    rewrite (Hgen _ Scores_init) by apply lookup_insert_eq.
    by rewrite insert_insert_eq.
Qed.

Lemma defaultdict_getitem_snd sys id :
  (defaultdict_getitem sys id).2 = sys_get sys id.
Proof. unfold defaultdict_getitem, sys_get. by destruct (sys !! id). Qed.

Lemma defaultdict_getitem_lookup sys id id' :
  (defaultdict_getitem sys id).1 !! id'
  = if decide (id' = id) then Some (sys_get sys id) else sys !! id'.
Proof.
  unfold defaultdict_getitem, sys_get.
  destruct (sys !! id) as [a|] eqn:Hid; simpl; case_decide; subst; try done.
  - by rewrite lookup_insert_eq.
  - by rewrite lookup_insert_ne.
Qed.

Lemma defaultdict_getitem_get sys id id' :
  sys_get (defaultdict_getitem sys id).1 id' = sys_get sys id'.
Proof.
  unfold sys_get at 1. rewrite defaultdict_getitem_lookup.
  case_decide; subst; done.
Qed.

Lemma score_example_spec scores sys id g :
  let js := judgments_of g (sys_get sys id) in
  let scores1 := <[None := Scores_plus (tally scores None) (example_delta js)]> scores in
  score_example (scores, sys) (id, g)
  = mkRun (example_lines (sys_get sys) (id, g))
      (Returns (<[gender g := Scores_plus (tally scores1 (gender g)) (example_delta js)]> scores1,
                (defaultdict_getitem sys id).1)).
Proof.
  intros js scores1. unfold score_example, example_lines.
  pose proof (defaultdict_getitem_snd sys id) as Hsnd.
  destruct (defaultdict_getitem sys id) as [sys1 a]. simpl in Hsnd. subst a.
  cbn [for_each]. rewrite score_gender_spec, bind_returns.
  rewrite score_gender_spec, bind_returns. cbn [stdout outcome mret Run_ret].
  rewrite bind_returns. cbn [stdout outcome mret Run_ret].
  by rewrite !app_nil_r.
Qed.

Lemma tally_insert (scores : gmap (option Gender) Scores) k k' s :
  tally (<[k := s]> scores) k' = if decide (k = k') then s else tally scores k'.
Proof.
  unfold tally. case_decide; subst.
  - by rewrite lookup_insert_eq.
  - by rewrite lookup_insert_ne.
Qed.

Lemma tally_score_example scores key g d :
  let scores1 := <[None := Scores_plus (tally scores None) d]> scores in
  tally (<[g := Scores_plus (tally scores1 g) d]> scores1) key
  = Scores_plus (tally scores key) (Scores_scale (visits key g) d).
Proof.
  intros scores1. unfold scores1, visits. rewrite !tally_insert.
  repeat case_decide; subst; try done; apply Scores_eq; simpl; lia.
Qed.

Lemma is_Some_score_example (scores : gmap (option Gender) Scores) key g s1 s2 :
  is_Some (<[g := s2]> (<[None := s1]> scores) !! key)
  ↔ is_Some (scores !! key) ∨ key = None ∨ key = g.
Proof.
  rewrite !lookup_insert_is_Some.
  destruct (decide (g = key)), (decide (None = key)); intuition congruence.
Qed.

(** *** The loop over the gold dictionary *)

Lemma score_examples_spec (l : list (string * Annotation)) scores sys :
  ∃ scores' sys',
    for_each l score_example (scores, sys)
    = mkRun (flat_map (example_lines (sys_get sys)) l) (Returns (scores', sys'))
    ∧ (∀ key, tally scores' key
         = Scores_plus (tally scores key)
             (Scores_sum (map (contribution key (sys_get sys)) l)))
    ∧ (∀ key, is_Some (scores' !! key)
         ↔ is_Some (scores !! key)
           ∨ ∃ item, item ∈ l ∧ (key = None ∨ key = gender item.2))
    ∧ (∀ id, sys' !! id
         = if decide (id ∈ l.*1) then Some (sys_get sys id) else sys !! id).
Proof.
  revert scores sys. induction l as [|[id g] l IH]; intros scores sys.
  - exists scores, sys. simpl. split_and!; try done.
    + intros key. by rewrite Scores_plus_zero.
    + intros key. split; [auto|]. intros [?|(item & Hin & _)]; [done|].
      by apply elem_of_nil in Hin.
  - cbn [for_each]. rewrite score_example_spec, bind_returns.
    set (js := judgments_of g (sys_get sys id)).
    set (scores1 := <[None := _]> scores).
    set (scores2 := <[gender g := _]> scores1).
    set (sys1 := (defaultdict_getitem sys id).1).
    destruct (IH scores2 sys1) as (scores' & sys' & Hrun & Htally & Hdom & Hsys).
    assert (Hget : ∀ i, sys_get sys1 i = sys_get sys i)
      by (intros i; apply defaultdict_getitem_get).
    exists scores', sys'. rewrite Hrun. cbn [stdout outcome flat_map map fmap list_fmap].
    split_and!.
    + f_equal. f_equal. apply flat_map_ext. intros [i a].
      unfold example_lines. simpl. by rewrite Hget.
    + intros key. rewrite Htally. unfold scores2, scores1.
      rewrite tally_score_example, Scores_plus_assoc. f_equal.
      replace (map (contribution key (sys_get sys1)) l)
        with (map (contribution key (sys_get sys)) l); [done|].
      apply map_ext. intros [i a]. unfold contribution. simpl.
      by rewrite Hget.
    + intros key. rewrite Hdom. unfold scores2, scores1.
      rewrite is_Some_score_example. split.
      * intros [[?|Hk]|(item & Hin & Hk)]; [by left| |].
        -- right. exists (id, g). split; [apply elem_of_cons; by left|done].
        -- right. exists item. split; [apply elem_of_cons; by right|done].
      * intros [?|(item & Hin & Hk)]; [by left; left|].
        apply elem_of_cons in Hin as [->|Hin]; [by left; right|].
        right. by exists item.
    + intros i. rewrite Hsys. unfold sys1.
      rewrite Hget, defaultdict_getitem_lookup.
      change (((id, g) :: l).*1) with (id :: l.*1).
      destruct (decide (i ∈ l.*1)) as [Hin|Hnin].
      * rewrite decide_True; [done|apply elem_of_cons; by right].
      * destruct (decide (i = id)) as [->|Hne].
        -- rewrite decide_True; [done|apply elem_of_cons; by left].
        -- rewrite decide_False; [done|]. rewrite elem_of_cons. intuition.
Qed.

Lemma Scores_plus_zero_l (s : Scores) : Scores_plus Scores_init s = s.
Proof. destruct s; apply Scores_eq; simpl; lia. Qed.

Lemma Scores_sum_perm (l1 l2 : list Scores) :
  l1 ≡ₚ l2 → Scores_sum l1 = Scores_sum l2.
Proof.
  induction 1 as [|x l1 l2 _ IH|x y l|l1 l2 l3 _ IH1 _ IH2]; simpl.
  - done.
  - by rewrite IH.
  - rewrite <- !Scores_plus_assoc. f_equal. apply Scores_plus_comm.
  - by rewrite IH1.
Qed.

(** *** [calculate_scores] on a whole dictionary *)

Lemma calculate_scores_spec (gold sys : gmap string Annotation) :
  ∃ scores sys',
    calculate_scores gold sys
    = mkRun (flat_map (example_lines (sys_get sys)) (map_to_list gold))
        (Returns (scores, sys'))
    ∧ (∀ key, tally scores key
         = Scores_sum (map (contribution key (sys_get sys)) (map_to_list gold)))
    ∧ (∀ key, is_Some (scores !! key)
         ↔ ∃ id g, gold !! id = Some g ∧ (key = None ∨ key = gender g))
    ∧ (∀ id, sys' !! id
         = if decide (is_Some (gold !! id)) then Some (sys_get sys id) else sys !! id).
Proof.
  unfold calculate_scores.
  destruct (score_examples_spec (map_to_list gold) ∅ sys)
    as (scores & sys' & Hrun & Htally & Hdom & Hsys).
  exists scores, sys'. split_and!; [done|..].
  - intros key. rewrite Htally. apply Scores_plus_zero_l.
  - intros key. rewrite Hdom, lookup_empty. split.
    + intros [[? ?]|([id g] & Hin & Hk)]; [done|].
      apply elem_of_map_to_list in Hin. by exists id, g.
    + intros (id & g & Hin & Hk). right. exists (id, g).
      by rewrite elem_of_map_to_list.
  - intros id. rewrite Hsys.
    destruct (decide (is_Some (gold !! id))) as [[g Hg]|Hnone].
    + rewrite decide_True; [done|].
      apply list_elem_of_fmap. exists (id, g). by rewrite elem_of_map_to_list.
    + rewrite decide_False; [done|].
      intros ([i g] & -> & Hin)%list_elem_of_fmap.
      apply elem_of_map_to_list in Hin. apply Hnone. by exists g.
Qed.

Lemma sys_get_after (gold sys sys' : gmap string Annotation) :
  (∀ id, sys' !! id
     = if decide (is_Some (gold !! id)) then Some (sys_get sys id) else sys !! id) →
  ∀ id, sys_get sys' id = sys_get sys id.
Proof.
  intros Hsys id. unfold sys_get at 1. rewrite Hsys. by case_decide.
Qed.

Lemma scores_eq_by_tally (scores1 scores2 : gmap (option Gender) Scores) :
  (∀ key, tally scores1 key = tally scores2 key) →
  (∀ key, is_Some (scores1 !! key) ↔ is_Some (scores2 !! key)) →
  scores1 = scores2.
Proof.
  intros Htally Hdom. apply map_eq. intros key.
  specialize (Htally key). specialize (Hdom key). unfold tally in Htally.
  destruct (scores1 !! key) as [s1|] eqn:H1, (scores2 !! key) as [s2|] eqn:H2;
    simpl in *; try congruence.
  - destruct Hdom as [Hd _]. destruct Hd as [? ?]; [by eexists|done].
  - destruct Hdom as [_ Hd]. destruct Hd as [? ?]; [by eexists|done].
Qed.

Lemma bump_inj (b b' : Bucket) (s : Scores) : bump b s = bump b' s → b = b'.
Proof.
  destruct s, b, b'; simpl; unfold incr_true_positives, incr_false_positives,
    incr_true_negatives, incr_false_negatives; simpl; intros [=]; try done; lia.
Qed.

Lemma calculate_scores_singleton (id : string) (g : Annotation)
    (sys : gmap string Annotation) :
  ∃ scores sys',
    calculate_scores {[ id := g ]} sys
    = mkRun (example_lines (sys_get sys) (id, g)) (Returns (scores, sys'))
    ∧ ∀ key, key = None ∨ key = gender g →
        scores !! key
        = Some (Scores_scale (visits key (gender g))
                  (example_delta (judgments_of g (sys_get sys id)))).
Proof.
  destruct (calculate_scores_spec {[ id := g ]} sys)
    as (scores & sys' & Hrun & Htally & Hdom & _).
  rewrite map_to_list_singleton in Hrun. cbn [flat_map] in Hrun.
  rewrite app_nil_r in Hrun.
  exists scores, sys'. split; [exact Hrun|]. intros key Hkey.
  assert (Hsome : is_Some (scores !! key)).
  { apply Hdom. exists id, g. by rewrite lookup_singleton_eq. }
  specialize (Htally key). rewrite map_to_list_singleton in Htally.
  destruct Hsome as [s Hs]. unfold tally in Htally. rewrite Hs in Htally.
  simpl in Htally. rewrite Hs, Htally. f_equal. apply Scores_plus_zero.
Qed.

(** ** The claims on [calculate_scores] *)

(** C1. A judgment whose gold value is [True] or [False] and whose system
    value is [True], [False] or [None] adds one to exactly one counter of
    the tally it is scored against and leaves the other three as they are;
    the counter is the one the table names: system [None] is a false
    negative (with the warning line), [True]/[True] a true positive,
    [False]/[True] a false positive, [False]/[False] a true negative and
    [True]/[False] a false negative.  Accordingly [calculate_scores], on a
    single gold example with both gold values present, returns an overall
    tally and a gender tally that each hold the two counts of the table,
    starting from zero.  Scoring is deterministic: it always returns, and
    scoring the same dictionaries a second time, with the system dictionary
    as the first call left it, prints the same lines and returns the same
    tallies. *)
Theorem C1_classification_total_and_deterministic
    (example_id : string) (key : option Gender)
    (scores : gmap (option Gender) Scores) (s : Scores)
    (gold : bool) (system : option bool)
    (g : Gender) (gold_a gold_b : bool)
    (gold_annotations system_annotations : gmap string Annotation)
    (Hkey : scores !! key = Some s) :
  let table (gold : bool) (system : option bool) : Bucket :=
    match system, gold with
    | None, _ => FN
    | Some true, true => TP
    | Some true, false => FP
    | Some false, false => TN
    | Some false, true => FN
    end in
  let add_one (b : Bucket) (s : Scores) : Scores :=
    match b with
    | TP => mkScores (true_positives s + 1) (false_positives s)
              (true_negatives s) (false_negatives s)
    | FP => mkScores (true_positives s) (false_positives s + 1)
              (true_negatives s) (false_negatives s)
    | TN => mkScores (true_positives s) (false_positives s)
              (true_negatives s + 1) (false_negatives s)
    | FN => mkScores (true_positives s) (false_positives s)
              (true_negatives s) (false_negatives s + 1)
    end in
  score_judgment example_id key scores (Some gold, system)
    = mkRun (if system is None then ["Missing output for " ++ example_id] else [])
        (Returns (<[key := add_one (table gold system) s]> scores))
  ∧ (∀ b, outcome (score_judgment example_id key scores (Some gold, system))
          = Returns (<[key := add_one b s]> scores) →
          b = table gold system)
  ∧ (∃ out tallies system_annotations',
       let system_annotation :=
         default (mkAnnotation None None None)
           (system_annotations !! example_id) in
       let expected :=
         add_one (table gold_b (name_b_coref system_annotation))
           (add_one (table gold_a (name_a_coref system_annotation))
              (mkScores 0 0 0 0)) in
       calculate_scores
         {[ example_id := mkAnnotation (Some g) (Some gold_a) (Some gold_b) ]}
         system_annotations
       = mkRun out (Returns (tallies, system_annotations'))
       ∧ tallies !! None = Some expected
       ∧ tallies !! Some g = Some expected)
  ∧ ∃ out tallies system_annotations',
      calculate_scores gold_annotations system_annotations
        = mkRun out (Returns (tallies, system_annotations'))
      ∧ calculate_scores gold_annotations system_annotations'
        = mkRun out (Returns (tallies, system_annotations')).
Proof.
  intros table add_one.
  assert (Hadd : add_one = bump) by reflexivity.
  assert (Htable : table = bucket_table) by reflexivity.
  clearbody add_one table. subst add_one table.
  split_and!.
  - rewrite (score_judgment_spec _ _ _ _ _ Hkey). unfold missing_line, bucket_of.
    simpl. by destruct system, gold.
  - intros b. rewrite (score_judgment_spec _ _ _ _ _ Hkey). simpl.
    intros [= Heq]. apply (f_equal (.!! key)) in Heq.
    rewrite !lookup_insert_eq in Heq. injection Heq as Heq.
    unfold bucket_of in Heq. simpl in Heq. symmetry. by eapply bump_inj.
  - destruct (calculate_scores_singleton example_id
                (mkAnnotation (Some g) (Some gold_a) (Some gold_b))
                system_annotations)
      as (tallies & sys' & Hrun & Hkeys).
    eexists _, tallies, sys'. cbn zeta. split; [exact Hrun|].
    rewrite (Hkeys None) by (by left). rewrite (Hkeys (Some g)) by (by right).
    unfold sys_get, judgments_of, example_delta, bucket_of.
    cbn [gender foldr fst snd name_a_coref name_b_coref py.truthy].
    change (mkAnnotation None None None) with Annotation_init.
    generalize (default Annotation_init (system_annotations !! example_id)).
    intros [? a b]. cbn [name_a_coref name_b_coref].
    split; f_equal; destruct g, gold_a, gold_b, a as [[]|], b as [[]|];
      reflexivity.
  - destruct (calculate_scores_spec gold_annotations system_annotations)
      as (tallies & sys' & Hrun & Htally & Hdom & Hsys).
    destruct (calculate_scores_spec gold_annotations sys')
      as (tallies2 & sys'' & Hrun2 & Htally2 & Hdom2 & Hsys2).
    pose proof (sys_get_after _ _ _ Hsys) as Hget.
    exists (flat_map (example_lines (sys_get system_annotations))
              (map_to_list gold_annotations)), tallies, sys'.
    split; [done|]. rewrite Hrun2.
    assert (tallies2 = tallies) as ->.
    { apply scores_eq_by_tally.
      - intros k. rewrite Htally, Htally2. f_equal. apply map_ext.
        intros [i a]. unfold contribution. simpl. by rewrite Hget.
      - intros k. by rewrite Hdom, Hdom2. }
    assert (sys'' = sys') as ->.
    { apply map_eq. intros i. rewrite Hsys2, Hget, Hsys.
      by repeat case_decide. }
    f_equal. apply flat_map_ext. intros [i a]. unfold example_lines. simpl.
    by rewrite Hget.
Qed.

(** An instance of C1: a true positive scored against a tally that holds
    counts already, and a gold example with a true positive and a false
    positive scored from zero. *)
Lemma C1_classification_witness :
  ({[ None := mkScores 5 6 7 8 ]} : gmap (option Gender) Scores) !! None
    = Some (mkScores 5 6 7 8)
  ∧ score_judgment "1" None {[ None := mkScores 5 6 7 8 ]} (Some true, Some true)
    = mkRun [] (Returns (<[None := mkScores 6 6 7 8]> {[ None := mkScores 5 6 7 8 ]}))
  ∧ ∃ out tallies system_annotations',
      calculate_scores
        {[ "1" := mkAnnotation (Some FEMININE) (Some true) (Some false) ]}
        {[ "1" := mkAnnotation None (Some true) (Some true) ]}
      = mkRun out (Returns (tallies, system_annotations'))
      ∧ tallies !! None = Some (mkScores 1 1 0 0)
      ∧ tallies !! Some FEMININE = Some (mkScores 1 1 0 0).
Proof.
  assert (Hkey : ({[ None := mkScores 5 6 7 8 ]} : gmap (option Gender) Scores)
                   !! None = Some (mkScores 5 6 7 8)) by reflexivity.
  split; [exact Hkey|].
  destruct (C1_classification_total_and_deterministic "1" None
              {[ None := mkScores 5 6 7 8 ]} (mkScores 5 6 7 8) true (Some true)
              FEMININE true false
              {[ "1" := mkAnnotation (Some FEMININE) (Some true) (Some false) ]}
              {[ "1" := mkAnnotation None (Some true) (Some true) ]}
              Hkey)
    as (Hone & _ & Hsingle & _).
  split; [exact Hone|]. exact Hsingle.
Defined.

Lemma tally_absent (scores : gmap (option Gender) Scores) key :
  scores !! key = None → tally scores key = Scores_init.
Proof. unfold tally. by intros ->. Qed.

Lemma gender_specific_total_alt (scores : gmap (option Gender) Scores) :
  gender_specific_total scores
  = Scores_sum (map (λ g, tally scores (Some g)) [UNKNOWN; MASCULINE; FEMININE]).
Proof.
  unfold gender_specific_total.
  induction scores as [|k v m Hk IH] using map_ind.
  - rewrite map_to_list_empty. simpl. unfold tally. rewrite !lookup_empty.
    simpl. apply Scores_eq; simpl; lia.
  - rewrite (Scores_sum_perm _
               (map snd (filter (λ kv, kv.1 ≠ None) ((k, v) :: map_to_list m)))).
    2:{ apply Permutation_map. apply filter_Permutation.
        by apply map_to_list_insert. }
    rewrite filter_cons. simpl. rewrite !tally_insert.
    pose proof (tally_absent m k Hk) as Hz.
    destruct k as [[]|]; simpl.
    all: rewrite ?decide_True by done; simpl; rewrite IH; simpl.
    all: repeat case_decide; try done.
    all: rewrite ?Hz; apply Scores_eq; simpl; lia.
Qed.

Lemma contribution_by_gender get (item : string * Annotation) :
  gender item.2 ≠ None →
  contribution None get item
  = Scores_sum (map (λ g, contribution (Some g) get item)
                  [UNKNOWN; MASCULINE; FEMININE]).
Proof.
  intros Hg. unfold contribution.
  generalize (example_delta (judgments_of item.2 (get item.1))) as d. intros d.
  destruct (gender item.2) as [x|]; [|done]. unfold visits.
  destruct x; simpl; repeat case_decide; try done; apply Scores_eq; simpl; lia.
Qed.

Lemma Scores_sum_by_gender get (l : list (string * Annotation)) :
  Forall (λ item, gender item.2 ≠ None) l →
  Scores_sum (map (contribution None get) l)
  = Scores_sum (map (λ g, Scores_sum (map (contribution (Some g) get) l))
                  [UNKNOWN; MASCULINE; FEMININE]).
Proof.
  induction 1 as [|item l Hitem _ IH]; simpl.
  - apply Scores_eq; simpl; lia.
  - rewrite IH, (contribution_by_gender get item Hitem). simpl.
    apply Scores_eq; simpl; lia.
Qed.

(** C3. When every gold annotation carries a gender, the overall tally
    returned by [calculate_scores] (the one under key [None]) equals, counter
    by counter, the sum of the gender-specific tallies of the returned
    dictionary. *)
Theorem C3_overall_is_sum_of_genders
    (gold_annotations system_annotations : gmap string Annotation)
    (Hgender : map_Forall (λ _ a, gender a ≠ None) gold_annotations) :
  ∃ out scores system_annotations',
    calculate_scores gold_annotations system_annotations
      = mkRun out (Returns (scores, system_annotations'))
    ∧ tally scores None = gender_specific_total scores.
Proof.
  destruct (calculate_scores_spec gold_annotations system_annotations)
    as (scores & sys' & Hrun & Htally & _ & _).
  eexists _, scores, sys'. split; [exact Hrun|].
  rewrite gender_specific_total_alt. simpl. rewrite !Htally.
  rewrite Scores_sum_by_gender; [done|].
  apply Forall_forall. intros [id a] Hin. simpl.
  apply elem_of_map_to_list in Hin. by eapply Hgender.
Qed.

(** An instance of C3 on two gold examples of different gender. *)
Lemma C3_overall_is_sum_witness :
  map_Forall (λ _ a, gender a ≠ None) gold_two
  ∧ ∃ out scores system_annotations',
      calculate_scores gold_two system_one
        = mkRun out (Returns (scores, system_annotations'))
      ∧ tally scores None = gender_specific_total scores.
Proof.
  assert (H : map_Forall (λ _ a, gender a ≠ None) gold_two).
  { unfold gold_two. repeat (apply map_Forall_insert_2; [done|]).
    apply map_Forall_empty. }
  split; [exact H|].
  exact (C3_overall_is_sum_of_genders gold_two system_one H).
Defined.

Lemma contribution_sum_delete (gold : gmap string Annotation) id g key get :
  gold !! id = Some g →
  Scores_sum (map (contribution key get) (map_to_list gold))
  = Scores_plus (contribution key get (id, g))
      (Scores_sum (map (contribution key get) (map_to_list (delete id gold)))).
Proof.
  intros Hid.
  rewrite (Scores_sum_perm _
             (map (contribution key get) ((id, g) :: map_to_list (delete id gold)))).
  - done.
  - apply Permutation_map. symmetry. by apply map_to_list_delete.
Qed.

Lemma example_delta_counts (g a : Annotation) :
  let d := example_delta (judgments_of g a) in
  counted d = 2 ∧ missing_judgments a ≤ false_negatives d
  ∧ 0 ≤ true_positives d ∧ 0 ≤ false_positives d ∧ 0 ≤ true_negatives d.
Proof.
  destruct g as [? [[]|] [[]|]], a as [? [[]|] [[]|]]; vm_compute; intuition congruence.
Qed.

Lemma visits_nonneg key g : 0 ≤ visits key g.
Proof. unfold visits. repeat case_decide; lia. Qed.

(** C5. A gold example whose system judgment for name A or name B is absent,
    be it that the judgment is [None] or that the system dictionary has no
    entry for the example, is scored without aborting: the warning line is
    printed, and compared with the same run without that example each of
    the two tallies the example is scored against (overall, and its gender)
    has counted two more judgments per visit, the absent ones among them as
    false negatives. *)
Theorem C5_missing_output_is_false_negative
    (gold_annotations system_annotations : gmap string Annotation)
    (example_id : string) (gold_annotation : Annotation)
    (Hgold : gold_annotations !! example_id = Some gold_annotation)
    (Hmissing : system_annotations !! example_id = None
                ∨ ∃ a, system_annotations !! example_id = Some a
                       ∧ (name_a_coref a = None ∨ name_b_coref a = None)) :
  (∀ key scores s gold,
     scores !! key = Some s →
     score_judgment example_id key scores (gold, None)
     = mkRun ["Missing output for " ++ example_id]
         (Returns (<[key := incr_false_negatives s]> scores)))
  ∧ ∃ out scores system_annotations' out0 scores0 system_annotations0,
      calculate_scores gold_annotations system_annotations
        = mkRun out (Returns (scores, system_annotations'))
      ∧ calculate_scores (delete example_id gold_annotations) system_annotations
        = mkRun out0 (Returns (scores0, system_annotations0))
      ∧ ("Missing output for " ++ example_id) ∈ out
      ∧ 1 ≤ missing_judgments (sys_get system_annotations example_id)
      ∧ ∀ key, key = None ∨ key = gender gold_annotation →
          is_Some (scores !! key)
          ∧ counted (tally scores key)
            = counted (tally scores0 key) + 2 * visits key (gender gold_annotation)
          ∧ false_negatives (tally scores0 key)
            + visits key (gender gold_annotation)
              * missing_judgments (sys_get system_annotations example_id)
            ≤ false_negatives (tally scores key)
          ∧ true_positives (tally scores0 key) ≤ true_positives (tally scores key)
          ∧ false_positives (tally scores0 key) ≤ false_positives (tally scores key)
          ∧ true_negatives (tally scores0 key) ≤ true_negatives (tally scores key).
Proof.
  split.
  { intros key scores s gold Hs.
    rewrite (score_judgment_spec _ _ _ _ _ Hs). reflexivity. }
  destruct (calculate_scores_spec gold_annotations system_annotations)
    as (scores & sys' & Hrun & Htally & Hdom & _).
  destruct (calculate_scores_spec (delete example_id gold_annotations)
              system_annotations)
    as (scores0 & sys0 & Hrun0 & Htally0 & _ & _).
  set (a := sys_get system_annotations example_id).
  assert (Hnull : name_a_coref a = None ∨ name_b_coref a = None).
  { unfold a, sys_get. destruct Hmissing as [->|(a' & -> & Ha')]; simpl; auto. }
  eexists _, scores, sys', _, scores0, sys0.
  split; [exact Hrun|]. split; [exact Hrun0|]. split_and!.
  - apply list_elem_of_In, in_flat_map. exists (example_id, gold_annotation).
    split.
    + apply list_elem_of_In. by apply elem_of_map_to_list.
    + unfold example_lines, missing_lines, judgments_of, missing_line. simpl.
      fold a. apply list_elem_of_In.
      destruct Hnull as [-> | ->]; simpl.
      * apply elem_of_cons. by left.
      * destruct (name_a_coref a); simpl; apply elem_of_cons; [by left|].
        right. apply elem_of_cons. by left.
  - unfold missing_judgments. destruct Hnull as [-> | ->];
      [destruct (name_b_coref a)|destruct (name_a_coref a)]; lia.
  - intros key Hkey. split.
    { apply Hdom. by exists example_id, gold_annotation. }
    rewrite Htally, Htally0.
    rewrite (contribution_sum_delete _ _ _ _ _ Hgold).
    generalize (Scores_sum (map (contribution key (sys_get system_annotations))
                  (map_to_list (delete example_id gold_annotations)))) as rest.
    intros rest. unfold contribution. cbn [fst snd]. fold a.
    pose proof (example_delta_counts gold_annotation a) as (Hc & Hm & Htp & Hfp & Htn).
    pose proof (visits_nonneg key (gender gold_annotation)) as Hv.
    set (d := example_delta (judgments_of gold_annotation a)) in *.
    set (v := visits key (gender gold_annotation)) in *.
    set (m := missing_judgments a) in *. clearbody d v m.
    unfold counted in *. simpl. split_and!; nia.
Qed.

(** An instance of C5: example 2 has no system entry at all. *)
Lemma C5_missing_output_witness :
  gold_two !! "2" = Some (mkAnnotation (Some MASCULINE) (Some false) (Some true))
  ∧ system_one !! "2" = None
  ∧ ∃ out scores system_annotations',
      calculate_scores gold_two system_one
        = mkRun out (Returns (scores, system_annotations'))
      ∧ "Missing output for 2" ∈ out
      ∧ 2 ≤ false_negatives (tally scores None).
Proof.
  split; [reflexivity|]. split; [reflexivity|].
  assert (Hgold : gold_two !! "2"
                  = Some (mkAnnotation (Some MASCULINE) (Some false) (Some true)))
    by reflexivity.
  assert (Hmissing : system_one !! "2" = None
                     ∨ ∃ a, system_one !! "2" = Some a
                            ∧ (name_a_coref a = None ∨ name_b_coref a = None))
    by (left; reflexivity).
  destruct (C5_missing_output_is_false_negative gold_two system_one "2" _
              Hgold Hmissing)
    as (_ & out & scores & sys' & out0 & scores0 & sys0 & Hrun & Hrun0 & Hin & _ & Hkey).
  exists out, scores, sys'. split; [exact Hrun|]. split; [exact Hin|].
  destruct (Hkey None (or_introl eq_refl)) as (_ & _ & Hfn & _).
  assert (Hz : 0 ≤ false_negatives (tally scores0 None)).
  { vm_compute in Hrun0. injection Hrun0 as _ <- _. by vm_compute. }
  change (visits None (gender (mkAnnotation (Some MASCULINE) (Some false) (Some true)))) with 1 in Hfn.
  change (missing_judgments (sys_get system_one "2")) with 2 in Hfn.
  lia.
Defined.

(** C9. [calculate_scores] changes the [system_annotations] dictionary it is
    given: every example of the gold dictionary that has no system entry gets
    one, a fresh [Annotation()] with all fields [None]; entries that exist are
    kept as they are and no other key is added.  So the dictionary is left
    as it was only if it covered every gold example. *)
Theorem C9_system_annotations_extended
    (gold_annotations system_annotations : gmap string Annotation) :
  ∃ out scores system_annotations',
    calculate_scores gold_annotations system_annotations
      = mkRun out (Returns (scores, system_annotations'))
    ∧ (∀ id, is_Some (gold_annotations !! id) →
             system_annotations !! id = None →
             system_annotations' !! id = Some (mkAnnotation None None None))
    ∧ (∀ id, is_Some (system_annotations !! id) ∨ gold_annotations !! id = None →
             system_annotations' !! id = system_annotations !! id)
    ∧ (system_annotations' = system_annotations
       ↔ ∀ id, is_Some (gold_annotations !! id) →
               is_Some (system_annotations !! id)).
Proof.
  destruct (calculate_scores_spec gold_annotations system_annotations)
    as (scores & sys' & Hrun & _ & _ & Hsys).
  eexists _, scores, sys'. split; [exact Hrun|].
  assert (Hnew : ∀ id, is_Some (gold_annotations !! id) →
             system_annotations !! id = None →
             sys' !! id = Some (mkAnnotation None None None)).
  { intros id Hg Hs. rewrite Hsys, decide_True by done.
    unfold sys_get. by rewrite Hs. }
  assert (Hold : ∀ id, is_Some (system_annotations !! id)
                       ∨ gold_annotations !! id = None →
             sys' !! id = system_annotations !! id).
  { intros id [[a Ha]|Hg]; rewrite Hsys.
    - unfold sys_get. rewrite Ha. by case_decide.
    - rewrite decide_False; [done|]. rewrite Hg. by intros [? ?]. }
  split_and!; [done|done|]. split.
  - intros Heq id Hg.
    destruct (system_annotations !! id) as [a|] eqn:Hs; [by eexists|].
    specialize (Hnew id Hg Hs). rewrite Heq, Hs in Hnew. done.
  - intros Hcov. apply map_eq. intros id. apply Hold.
    destruct (gold_annotations !! id) as [g|] eqn:Hg; [|by right].
    left. apply Hcov. by eexists.
Qed.

(** C10. A judgment whose gold value is [None] and whose system value is
    present is scored exactly like one whose gold value is [False]: a system
    [True] adds one to the false positives, a system [False] adds one to
    the true negatives, and the other counters stay as they are; nothing is
    printed and nothing is raised. *)
Theorem C10_gold_none_scored_as_false
    (example_id : string) (key : option Gender)
    (scores : gmap (option Gender) Scores) (s : Scores) (system : bool)
    (Hkey : scores !! key = Some s) :
  score_judgment example_id key scores (None, Some system)
    = mkRun []
        (Returns
           (<[key := if system
                     then mkScores (true_positives s) (false_positives s + 1)
                            (true_negatives s) (false_negatives s)
                     else mkScores (true_positives s) (false_positives s)
                            (true_negatives s + 1) (false_negatives s)]>
              scores))
  ∧ score_judgment example_id key scores (None, Some system)
    = score_judgment example_id key scores (Some false, Some system).
Proof.
  rewrite !(score_judgment_spec _ _ _ _ _ Hkey). by destruct system.
Qed.

(** An instance of C10 on a masculine tally: gold [None] with system [True],
    and gold [None] with system [False]. *)
Lemma C10_gold_none_witness :
  ({[ Some MASCULINE := mkScores 1 2 3 4 ]} : gmap (option Gender) Scores)
    !! Some MASCULINE = Some (mkScores 1 2 3 4)
  ∧ score_judgment "7" (Some MASCULINE) {[ Some MASCULINE := mkScores 1 2 3 4 ]}
      (None, Some true)
    = mkRun [] (Returns (<[Some MASCULINE := mkScores 1 3 3 4]>
                           {[ Some MASCULINE := mkScores 1 2 3 4 ]}))
  ∧ score_judgment "7" (Some MASCULINE) {[ Some MASCULINE := mkScores 1 2 3 4 ]}
      (None, Some false)
    = mkRun [] (Returns (<[Some MASCULINE := mkScores 1 2 4 4]>
                           {[ Some MASCULINE := mkScores 1 2 3 4 ]})).
Proof.
  split; [reflexivity|]. split.
  - apply (C10_gold_none_scored_as_false "7" (Some MASCULINE)
             {[ Some MASCULINE := mkScores 1 2 3 4 ]} (mkScores 1 2 3 4) true).
    reflexivity.
  - apply (C10_gold_none_scored_as_false "7" (Some MASCULINE)
             {[ Some MASCULINE := mkScores 1 2 3 4 ]} (mkScores 1 2 3 4) false).
    reflexivity.
Defined.

(** A gold dictionary with an unparsed judgment, scored end to end. *)
Example gold_none_end_to_end :
  let gold := {[ "1" := mkAnnotation (Some FEMININE) None (Some true) ]} in
  let system := {[ "1" := mkAnnotation None (Some true) (Some false) ]} in
  ∃ scores system',
    calculate_scores gold system = mkRun [] (Returns (scores, system'))
    ∧ scores !! None = Some (mkScores 0 1 0 1)
    ∧ scores !! Some FEMININE = Some (mkScores 0 1 0 1).
Proof. vm_compute. eexists _, _. split; [reflexivity|]. split; reflexivity. Qed.

(** ** The metrics in exact arithmetic *)

Lemma percentage_bounds (n d : Z) :
  0 ≤ n → n ≤ d → 0 < d →
  (0 <= 100 * inject_Z n / inject_Z d <= 100)%Q.
Proof.
  intros Hn Hnd Hd.
  assert (Hd' : (0 < inject_Z d)%Q) by (unfold Qlt; simpl; lia).
  split.
  - apply Qle_shift_div_l; [done|]. unfold Qle; simpl. lia.
  - apply Qle_shift_div_r; [done|]. unfold Qle; simpl. lia.
Qed.

Lemma truthy_int_spec (n : Z) : py.truthy_int n = bool_decide (n ≠ 0).
Proof.
  unfold py.truthy_int. destruct (Z.eqb_spec n 0).
  - by rewrite bool_decide_eq_false_2 by auto.
  - by rewrite bool_decide_eq_true_2.
Qed.

Lemma truthy_float_spec (x : Q) :
  py.truthy_float x = false ↔ (x == 0)%Q.
Proof.
  unfold py.truthy_float. rewrite negb_false_iff. apply Qeq_bool_iff.
Qed.

Lemma recall_bounds (self : Scores) :
  0 ≤ true_positives self → 0 ≤ false_negatives self →
  (0 <= recall self <= 100)%Q.
Proof.
  intros Htp Hfn. unfold recall. rewrite truthy_int_spec.
  case_bool_decide; [|lra]. apply percentage_bounds; lia.
Qed.

Lemma precision_bounds (self : Scores) :
  0 ≤ true_positives self → 0 ≤ false_positives self →
  (0 <= precision self <= 100)%Q.
Proof.
  intros Htp Hfp. unfold precision. rewrite truthy_int_spec.
  case_bool_decide; [|lra]. apply percentage_bounds; lia.
Qed.

Lemma harmonic_bounds (p r : Q) :
  (0 <= p <= 100)%Q → (0 <= r <= 100)%Q → ¬ (p + r == 0)%Q →
  (0 <= 2 * p * r / (p + r) <= 100)%Q.
Proof.
  intros [Hp0 Hp1] [Hr0 Hr1] Hnz.
  assert (Hpos : (0 < p + r)%Q).
  { destruct (Qlt_le_dec 0 (p + r)) as [?|Hle]; [done|].
    exfalso. apply Hnz. lra. }
  split.
  - apply Qle_shift_div_l; [done|]. nra.
  - apply Qle_shift_div_r; [done|]. nra.
Qed.

(** ** Reading annotations *)

Lemma mret_bind {A B} (a : A) (k : A → Run B) : mret a ≫= k = k a.
Proof.
  unfold mbind, Run_bind, mret, Run_ret. cbn [stdout outcome app].
  by destruct (k a).
Qed.

Lemma bind_raises {A B} (out : list string) (e : Exception) (k : A → Run B) :
  mkRun out (Raises e) ≫= k = mkRun out (Raises e).
Proof. reflexivity. Qed.

Lemma is_true_spec (value : string) :
  is_true (Some value) = mkRun (label_lines value) (Returns (coref_value value)).
Proof.
  unfold is_true, lower_method, label_lines, coref_value.
  rewrite mret_bind. case_decide; [done|].
  rewrite mret_bind. case_decide; reflexivity.
Qed.

Lemma is_true_none : is_true None = mkRun [] (Raises (AttributeError "lower")).
Proof. reflexivity. Qed.

Lemma PRONOUNS_known (k : string) :
  default UNKNOWN (PRONOUNS !! k) = UNKNOWN ↔ PRONOUNS !! k = None.
Proof.
  split; [|by intros ->].
  destruct (PRONOUNS !! k) as [g|] eqn:Hk; [|done]. simpl. intros ->.
  apply elem_of_list_to_map_2 in Hk.
  repeat (apply elem_of_cons in Hk as [Hk|Hk]; [by inversion Hk|]).
  by apply elem_of_nil in Hk.
Qed.

Lemma defaultdict_setattr_fresh (d : gmap string Annotation) k set :
  d !! k = None → defaultdict_setattr d k set = <[k := set Annotation_init]> d.
Proof.
  intros Hk. unfold defaultdict_setattr, defaultdict_getitem. rewrite Hk.
  by rewrite insert_insert_eq.
Qed.

Lemma defaultdict_setattr_present (d : gmap string Annotation) k a set :
  d !! k = Some a → defaultdict_setattr d k set = <[k := set a]> d.
Proof.
  intros Hk. unfold defaultdict_setattr, defaultdict_getitem. by rewrite Hk.
Qed.

Lemma read_row_repeated is_gold (annotations : gmap string Annotation) row :
  is_Some (annotations !! ID row) →
  read_row is_gold annotations row
  = mkRun ["Multiple annotations for " ++ ID row] (Returns annotations).
Proof.
  intros Hsome. unfold read_row. by rewrite decide_True.
Qed.

Lemma read_row_fresh is_gold (annotations : gmap string Annotation) row :
  annotations !! ID row = None →
  read_row is_gold annotations row
  = mkRun (row_lines row)
      (match row_exception is_gold row with
       | Some e => Raises e
       | None => Returns (<[ID row := row_annotation is_gold row]> annotations)
       end).
Proof.
  intros Hnone. unfold read_row, row_lines, row_exception, row_annotation.
  rewrite decide_False by (rewrite Hnone; by intros [? ?]).
  destruct (A_coref row) as [a|]; [|by rewrite is_true_none, bind_raises].
  rewrite is_true_spec, bind_returns.
  rewrite (defaultdict_setattr_fresh _ _ _ Hnone).
  destruct (B_coref row) as [b|];
    [|by rewrite is_true_none, bind_raises].
  rewrite is_true_spec. cbn [stdout outcome]. rewrite bind_returns.
  rewrite (defaultdict_setattr_present _ _ _ _ (lookup_insert_eq _ _ _)).
  rewrite insert_insert_eq. cbn [stdout outcome].
  destruct is_gold; [|by rewrite !app_nil_r].
  destruct (Pronoun row) as [pronoun|];
    [|unfold lower_method, raise; by rewrite bind_raises, !app_nil_r].
  unfold lower_method. rewrite mret_bind.
  pose proof (PRONOUNS_known (py.lower pronoun)) as Hknown.
  case_decide as Hu.
  - unfold assert, raise. rewrite bool_decide_eq_false_2 by (rewrite Hu; auto).
    by rewrite bind_raises, !app_nil_r.
  - unfold assert. rewrite bool_decide_eq_true_2 by (intros ?; by apply Hu, Hknown).
    rewrite mret_bind.
    rewrite (defaultdict_setattr_present _ _ _ _ (lookup_insert_eq _ _ _)).
    rewrite insert_insert_eq. cbn [stdout outcome mret Run_ret fmap option_fmap option_map].
    by rewrite !app_nil_r.
Qed.

Lemma first_row_cons (id : string) (r : Row) (rs : list Row) :
  first_row id (r :: rs) = if decide (ID r = id) then Some r else first_row id rs.
Proof.
  unfold first_row. cbn [find]. case_decide.
  - by rewrite bool_decide_eq_true_2.
  - by rewrite bool_decide_eq_false_2.
Qed.

(** *** The loop over the rows, from any dictionary *)

Lemma read_rows_spec is_gold (rows : list Row) (annotations : gmap string Annotation) :
  let run := for_each rows (read_row is_gold) annotations in
  match outcome run with
  | Returns annotations' =>
      (∀ id, annotations' !! id
         = match annotations !! id with
           | Some a => Some a
           | None => row_annotation is_gold <$> first_row id rows
           end)
      ∧ (∀ i row, rows !! i = Some row →
           is_Some (annotations !! ID row) ∨ ID row ∈ (ID <$> take i rows) →
           ("Multiple annotations for " ++ ID row) ∈ stdout run)
      ∧ (∀ i row, rows !! i = Some row →
           annotations !! ID row = None →
           ID row ∉ (ID <$> take i rows) →
           row_exception is_gold row = None)
  | Raises e =>
      ∃ i row, rows !! i = Some row
               ∧ annotations !! ID row = None
               ∧ (ID row ∉ (ID <$> take i rows))
               ∧ row_exception is_gold row = Some e
  end.
Proof.
  revert annotations. induction rows as [|r rs IH]; intros annotations run.
  - subst run. cbn [for_each mret Run_ret outcome]. split_and!.
    + intros id. by destruct (annotations !! id).
    + intros i row Hi. by rewrite lookup_nil in Hi.
    + intros i row Hi. by rewrite lookup_nil in Hi.
  - subst run. cbn [for_each].
    destruct (annotations !! ID r) as [a|] eqn:Hr.
    + rewrite read_row_repeated by (by eexists). rewrite bind_returns.
      cbn [stdout outcome]. specialize (IH annotations). cbn zeta in IH.
      destruct (outcome (for_each rs (read_row is_gold) annotations)) as [ann'|e].
      * destruct IH as (Hl & Hw & Hg). split_and!.
        -- intros id. rewrite Hl. destruct (annotations !! id) eqn:Hid; [done|].
           rewrite first_row_cons. rewrite decide_False; [done|].
           intros <-. congruence.
        -- intros i row Hi Hor. destruct i as [|i]; simpl in Hi.
           ++ injection Hi as <-. apply elem_of_cons. by left.
           ++ apply elem_of_cons. right. apply (Hw i row Hi).
              destruct Hor as [?|Hin]; [by left|].
              cbn in Hin. apply elem_of_cons in Hin as [Heq|?]; [|by right].
              left. rewrite Heq, Hr. by eexists.
        -- intros i row Hi Hn Hnin. destruct i as [|i]; simpl in Hi.
           ++ injection Hi as <-. congruence.
           ++ apply (Hg i row Hi Hn). intros Hin. apply Hnin.
              cbn. apply elem_of_cons. by right.
      * destruct IH as (i & row & Hi & Hn & Hnin & He).
        exists (S i), row. split_and!; try done.
        cbn. intros [Heq|?]%elem_of_cons; [|done].
        rewrite Heq, Hr in Hn. done.
    + rewrite (read_row_fresh _ _ _ Hr).
      destruct (row_exception is_gold r) as [e|] eqn:Hb.
      * rewrite bind_raises. cbn [outcome].
        exists 0%nat, r. split_and!; try done.
        cbn. apply not_elem_of_nil.
      * rewrite bind_returns. cbn [stdout outcome].
        set (ann1 := <[ID r := row_annotation is_gold r]> annotations).
        specialize (IH ann1). cbn zeta in IH.
        destruct (outcome (for_each rs (read_row is_gold) ann1)) as [ann'|e].
        -- destruct IH as (Hl & Hw & Hg). split_and!.
           ++ intros id. rewrite Hl, first_row_cons. unfold ann1.
              destruct (decide (ID r = id)) as [<-|Hne].
              ** by rewrite lookup_insert_eq, Hr.
              ** by rewrite lookup_insert_ne.
           ++ intros i row Hi Hor. destruct i as [|i]; simpl in Hi.
              ** injection Hi as <-. destruct Hor as [[? Hs]|Hin].
                 --- congruence.
                 --- cbn in Hin. by apply elem_of_nil in Hin.
              ** apply elem_of_app. right. apply (Hw i row Hi).
                 unfold ann1. destruct (decide (ID r = ID row)) as [Heq|Hne].
                 --- left. rewrite Heq, lookup_insert_eq. by eexists.
                 --- rewrite lookup_insert_ne by done.
                     destruct Hor as [?|Hin]; [by left|]. right.
                     cbn in Hin. apply elem_of_cons in Hin as [?|?]; [congruence|done].
           ++ intros i row Hi Hn Hnin. destruct i as [|i]; simpl in Hi.
              ** by injection Hi as <-.
              ** cbn in Hnin. apply not_elem_of_cons in Hnin as [Hne Hnin].
                 apply (Hg i row Hi); [|done].
                 unfold ann1. by rewrite lookup_insert_ne.
        -- destruct IH as (i & row & Hi & Hn & Hnin & He).
           exists (S i), row.
           assert (Hne : ID r ≠ ID row).
           { intros Heq. unfold ann1 in Hn. by rewrite Heq, lookup_insert_eq in Hn. }
           unfold ann1 in Hn. rewrite lookup_insert_ne in Hn by done.
           split_and!; try done. cbn. apply not_elem_of_cons. split; [done|done].
Qed.

Lemma first_row_lookup (rows : list Row) (i : nat) (row : Row) :
  first_seen rows i row → first_row (ID row) rows = Some row.
Proof.
  unfold first_seen. revert i. induction rows as [|r rs IH]; intros i [Hi Hnin].
  - by rewrite lookup_nil in Hi.
  - rewrite first_row_cons. destruct i as [|i]; simpl in Hi.
    + injection Hi as ->. by rewrite decide_True.
    + cbn in Hnin. apply not_elem_of_cons in Hnin as [Hne Hnin].
      rewrite decide_False by done. by apply (IH i).
Qed.

Lemma read_rows_outcome is_gold (rows : list Row) :
  match outcome (read_rows is_gold rows) with
  | Returns annotations =>
      (∀ id, annotations !! id = row_annotation is_gold <$> first_row id rows)
      ∧ (∀ i row, rows !! i = Some row → ID row ∈ (ID <$> take i rows) →
           ("Multiple annotations for " ++ ID row)
           ∈ stdout (read_rows is_gold rows))
      ∧ ¬ failing_first_seen is_gold rows
  | Raises e => ∃ i row, first_seen rows i row ∧ row_exception is_gold row = Some e
  end.
Proof.
  pose proof (read_rows_spec is_gold rows ∅) as Hspec. cbn zeta in Hspec.
  unfold read_rows, failing_first_seen, first_seen.
  destruct (outcome (for_each rows (read_row is_gold) ∅)) as [ann|e].
  - destruct Hspec as (Hl & Hw & Hg). split_and!.
    + intros id. by rewrite Hl, lookup_empty.
    + intros i row Hi Hin. apply (Hw i row Hi). by right.
    + intros (i & row & [Hi Hnin] & [e He]).
      rewrite (Hg i row Hi (lookup_empty _) Hnin) in He. done.
  - destruct Hspec as (i & row & Hi & _ & Hnin & He). by exists i, row.
Qed.

Lemma read_rows_raises is_gold (rows : list Row) :
  raises (read_rows is_gold rows) ↔ failing_first_seen is_gold rows.
Proof.
  pose proof (read_rows_outcome is_gold rows) as Hout. unfold raises.
  destruct (outcome (read_rows is_gold rows)) as [ann|e].
  - destruct Hout as (_ & _ & Hnot). split; [by intros [? ?]|done].
  - destruct Hout as (i & row & Hfirst & He). split.
    + intros _. exists i, row. split; [done|]. by eexists.
    + intros _. by exists e.
Qed.

Lemma unknown_pronoun_raises (row : Row) :
  unknown_pronoun row → is_Some (row_exception true row).
Proof.
  intros (pronoun & Hp & Hu). unfold row_exception. rewrite Hp.
  destruct (A_coref row), (B_coref row); try by eexists.
  rewrite decide_True by done. by eexists.
Qed.

Lemma row_exception_cases is_gold (row : Row) (e : Exception) :
  row_exception is_gold row = Some e →
  e = AttributeError "lower"
  ∨ (is_gold = true ∧ unknown_pronoun row ∧ e = AssertionError (FromRow row)).
Proof.
  unfold row_exception, unknown_pronoun.
  destruct (A_coref row), (B_coref row); try (intros [= <-]; by left).
  destruct is_gold; [|done].
  destruct (Pronoun row) as [pronoun|]; [|intros [= <-]; by left].
  case_decide; [|done]. intros [= <-]. right. split_and!; try done.
  by exists pronoun.
Qed.

(** ** The claims on [read_annotations] *)

(** C7. [row_annotation] is the annotation a row yields when it is read on
    its own.  When [read_annotations] returns, every ID is bound to the
    annotation of the first data row carrying it: a row whose ID occurred in
    an earlier row changes nothing and is reported by a warning line.  The
    read fails only on a first-seen row: one that lacks a cell that is read
    or, in a gold file, has an unknown pronoun. *)
Theorem C7_first_row_wins (file : list (list string)) (is_gold : bool) :
  let rows := data_rows file is_gold in
  (∀ row, row_exception is_gold row = None →
     outcome (read_row is_gold ∅ row)
     = Returns {[ ID row := row_annotation is_gold row ]})
  ∧
  match outcome (read_annotations file is_gold) with
  | Returns annotations =>
      (∀ id, annotations !! id = row_annotation is_gold <$> first_row id rows)
      ∧ (∀ i j first later,
           first_seen rows i first → rows !! j = Some later →
           (i < j)%nat → ID later = ID first →
           annotations !! ID first = Some (row_annotation is_gold first)
           ∧ ("Multiple annotations for " ++ ID later)
             ∈ stdout (read_annotations file is_gold))
  | Raises e =>
      ∃ i row, first_seen rows i row ∧ row_exception is_gold row = Some e
  end.
Proof.
  intros rows. split.
  { intros row Hok. rewrite read_row_fresh by apply lookup_empty.
    by rewrite Hok. }
  unfold read_annotations. fold rows.
  pose proof (read_rows_outcome is_gold rows) as Hout.
  destruct (outcome (read_rows is_gold rows)) as [ann|e]; [|done].
  destruct Hout as (Hlookup & Hw & _). split; [done|].
  intros i j first later Hfirst Hj Hlt Heq. split.
  - by rewrite Hlookup, (first_row_lookup rows i first Hfirst).
  - apply (Hw j later Hj). rewrite Heq. destruct Hfirst as [Hi _].
    apply list_elem_of_fmap. exists first. split; [done|].
    apply list_elem_of_lookup. exists i. by rewrite lookup_take_lt.
Qed.

Lemma failing_first_seen_relabel is_gold relabel (rows : list Row) :
  failing_first_seen is_gold (with_corefs relabel <$> rows)
  ↔ failing_first_seen is_gold rows.
Proof.
  assert (Hids : ∀ i, ID <$> take i (with_corefs relabel <$> rows)
                      = ID <$> take i rows).
  { intros i. rewrite <- fmap_take, <- list_fmap_compose. done. }
  assert (Hexc : ∀ row, is_Some (row_exception is_gold (with_corefs relabel row))
                        ↔ is_Some (row_exception is_gold row)).
  { intros row. unfold row_exception, with_corefs. cbn [A_coref B_coref Pronoun].
    destruct (A_coref row), (B_coref row); cbn; try done.
    destruct is_gold; [|done].
    destruct (Pronoun row); [|done]. case_decide; [|done].
    split; intros _; by eexists. }
  unfold failing_first_seen, first_seen. split.
  - intros (i & row & [Hi Hnin] & He). rewrite list_lookup_fmap in Hi.
    destruct (rows !! i) as [r|] eqn:Hr; [|done]. injection Hi as <-.
    exists i, r. rewrite Hids in Hnin. split; [done|]. by apply Hexc.
  - intros (i & row & [Hi Hnin] & He). exists i, (with_corefs relabel row).
    rewrite list_lookup_fmap, Hi, Hids. split; [done|]. by apply Hexc.
Qed.

(** C6. [is_true] yields [True] exactly for a value whose lower-cased form is
    ["true"], [False] exactly for ["false"], and for any other value prints
    the warning and yields [None].  A row with a fresh ID is recorded with
    the values so obtained.  No read fails because of the value of a coref
    field: a read fails only on a missing cell or on an unknown gold
    pronoun, and replacing the coref values of the rows in any way leaves
    the failure of a read unchanged. *)
Theorem C6_coref_parsing (value : string) (is_gold : bool)
    (annotations : gmap string Annotation) (row : Row) (rows : list Row)
    (file : list (list string)) (relabel : Row → string * string) :
  (outcome (is_true (Some value)) = Returns (Some true)
   ↔ py.lower value = "true")
  ∧ (outcome (is_true (Some value)) = Returns (Some false)
     ↔ py.lower value = "false")
  ∧ (py.lower value = "true" ∨ py.lower value = "false" →
     stdout (is_true (Some value)) = [])
  ∧ (py.lower value ≠ "true" → py.lower value ≠ "false" →
     is_true (Some value) = mkRun ["Unexpected label! " ++ value] (Returns None))
  ∧ (annotations !! ID row = None →
     row_exception is_gold row = None →
     ∃ out annotations' a b,
       read_row is_gold annotations row = mkRun out (Returns annotations')
       ∧ outcome (is_true (A_coref row)) = Returns a
       ∧ outcome (is_true (B_coref row)) = Returns b
       ∧ name_a_coref <$> annotations' !! ID row = Some a
       ∧ name_b_coref <$> annotations' !! ID row = Some b)
  ∧ (∀ e, outcome (read_annotations file is_gold) = Raises e →
          e = AttributeError "lower"
          ∨ (is_gold = true
             ∧ ∃ bad, bad ∈ data_rows file is_gold ∧ unknown_pronoun bad
                      ∧ e = AssertionError (FromRow bad)))
  ∧ (raises (read_rows is_gold (with_corefs relabel <$> rows))
     ↔ raises (read_rows is_gold rows)).
Proof.
  rewrite !is_true_spec. unfold label_lines, coref_value. cbn [stdout outcome].
  split. { repeat case_decide; split; intros; congruence. }
  split. { repeat case_decide; split; intros; congruence. }
  split. { intros [?|?]; repeat case_decide; congruence. }
  split. { intros ? ?. by rewrite !decide_False. }
  split.
  { intros Hfresh Hok. rewrite (read_row_fresh _ _ _ Hfresh), Hok.
    unfold row_exception in Hok.
    destruct (A_coref row) as [a|] eqn:Ha; [|done].
    destruct (B_coref row) as [b|] eqn:Hb; [|done].
    eexists _, _, _, _. split; [reflexivity|]. rewrite !is_true_spec.
    split; [reflexivity|]. split; [reflexivity|].
    rewrite lookup_insert_eq. unfold row_annotation. by rewrite Ha, Hb. }
  split.
  - intros e He. unfold read_annotations in He.
    pose proof (read_rows_outcome is_gold (data_rows file is_gold)) as Hout.
    rewrite He in Hout. destruct Hout as (i & bad & [Hi _] & Hexc).
    apply row_exception_cases in Hexc as [->|(-> & Hu & ->)]; [by left|].
    right. split; [done|]. exists bad. split_and!; try done.
    by eapply list_elem_of_lookup_2.
  - by rewrite !read_rows_raises, failing_first_seen_relabel.
Qed.

Lemma make_scorecard_spec (scores : gmap (option Gender) Scores) :
  make_scorecard scores
  = mkRun []
      (Returns
         (py.join py.newline
            (scorecard_block "Overall" (tally scores None)
             ++ scorecard_block "Masculine" (tally scores (Some MASCULINE))
             ++ scorecard_block "Feminine" (tally scores (Some FEMININE))
             ++ [bias_line (bias_text (f1 (tally scores (Some MASCULINE)))
                              (f1 (tally scores (Some FEMININE))))])%list)).
Proof.
  unfold make_scorecard, display_names, scorecard_step, bias_term.
  cbn [for_each mbind Run_bind mret Run_ret stdout outcome app].
  rewrite (lookup_insert_ne _ (Some FEMININE) (Some MASCULINE)) by done.
  rewrite !lookup_insert_eq.
  cbn [mbind Run_bind mret Run_ret stdout outcome app].
  unfold bias_text, tally.
  destruct (py.truthy_float (f1 (default Scores_init (scores !! Some MASCULINE))));
    [destruct (py.truthy_float (f1 (default Scores_init (scores !! Some FEMININE))))|];
    cbn [mbind Run_bind mret Run_ret stdout outcome app andb];
    by rewrite <- !app_assoc.
Qed.

(** ** The metrics and the scorecard in double precision: the claims *)

(** *** Conversion of an integer to a double *)

Lemma iter_pos_nat {A} (f : A → A) (p : positive) (x : A) :
  SpecFloat.iter_pos f p x = Nat.iter (Pos.to_nat p) f x.
Proof.
  revert x. induction p as [p IH|p IH|]; intros x; cbn [SpecFloat.iter_pos].
  - rewrite !IH, <- Nat.iter_succ_r, <- Nat.iter_add. f_equal. lia.
  - rewrite !IH, <- Nat.iter_add. f_equal. lia.
  - reflexivity.
Qed.

Lemma shr_1_spec (m : Z) (r s : bool) :
  0 ≤ m →
  shr_1 (Build_shr_record m r s) = Build_shr_record (Z.div2 m) (Z.odd m) (r || s).
Proof. intros Hm. destruct m as [|[p|p|]|]; try done; lia. Qed.

Lemma shr_iter_spec (j : nat) (m : Z) (r s : bool) :
  0 ≤ m →
  ∃ s', Nat.iter (S j) shr_1 (Build_shr_record m r s)
        = Build_shr_record (Z.shiftr m (Z.of_nat (S j)))
            (Z.testbit m (Z.of_nat j)) s'.
Proof.
  intros Hm. induction j as [|j [s' IH]].
  - exists (r || s)%bool. cbn [Nat.iter]. rewrite shr_1_spec by done.
    rewrite Z.div2_spec, Z.bit0_odd. reflexivity.
  - eexists.
    change (Nat.iter (S (S j)) shr_1 (Build_shr_record m r s))
      with (shr_1 (Nat.iter (S j) shr_1 (Build_shr_record m r s))).
    rewrite IH.
    rewrite shr_1_spec by (apply Z.shiftr_nonneg; lia).
    rewrite Z.div2_spec, Z.shiftr_shiftr by lia.
    rewrite <- Z.testbit_odd.
    replace (Z.of_nat (S j) + 1) with (Z.of_nat (S (S j))) by lia.
    reflexivity.
Qed.

(** Shifting a mantissa [k] times divides it by [2^k]; the round bit is the
    last bit shifted out. *)
Lemma shr_pos_spec (k : positive) (m : Z) (r s : bool) :
  0 ≤ m →
  ∃ s', SpecFloat.iter_pos shr_1 k (Build_shr_record m r s)
        = Build_shr_record (m / 2 ^ Z.pos k) (Z.testbit m (Z.pos k - 1)) s'.
Proof.
  intros Hm. rewrite iter_pos_nat.
  destruct (Pos2Nat.is_succ k) as [j Hj]. rewrite Hj.
  destruct (shr_iter_spec j m r s Hm) as [s' ->]. exists s'.
  rewrite Z.shiftr_div_pow2 by lia.
  replace (Z.of_nat (S j)) with (Z.pos k) by lia.
  replace (Z.of_nat j) with (Z.pos k - 1) by lia. done.
Qed.

Lemma digits2_pos_size (p : positive) : digits2_pos p = Pos.size p.
Proof. induction p; simpl; congruence. Qed.

(** [digits2_pos p] is the number of binary digits of [p]. *)
Lemma digits2_bounds (p : positive) :
  2 ^ (Z.pos (digits2_pos p) - 1) ≤ Z.pos p < 2 ^ Z.pos (digits2_pos p).
Proof.
  rewrite digits2_pos_size. split.
  - pose proof (Pos.size_le p) as H.
    assert (H2 : 2 ^ Z.pos (Pos.size p) ≤ 2 * Z.pos p).
    { rewrite <- Pos2Z.inj_pow. change (2 * Z.pos p) with (Z.pos p~0). lia. }
    replace (Z.pos (Pos.size p)) with (Z.succ (Z.pos (Pos.size p) - 1)) in H2 by lia.
    rewrite Z.pow_succ_r in H2 by lia. lia.
  - pose proof (Pos.size_gt p) as H. rewrite <- Pos2Z.inj_pow. lia.
Qed.

Lemma digits2_unique (p : positive) (n : Z) :
  2 ^ (n - 1) ≤ Z.pos p < 2 ^ n → Z.pos (digits2_pos p) = n.
Proof.
  intros [Hlo Hhi]. pose proof (digits2_bounds p) as [Hlo' Hhi'].
  assert (0 < n).
  { destruct (Z_lt_le_dec 0 n); [done|]. 
    assert (2 ^ n ≤ 1).
    { destruct (Z.eq_dec n 0) as [->|]; [done|]. rewrite Z.pow_neg_r; lia. }
    lia. }
  assert (Z.pos (digits2_pos p) - 1 < n).
  { apply (Z.pow_lt_mono_r_iff 2); lia. }
  assert (n - 1 < Z.pos (digits2_pos p)).
  { apply (Z.pow_lt_mono_r_iff 2); lia. }
  lia.
Qed.

Lemma fexp_spec (e : Z) : fexp 53 1024 e = Z.max (e - 53) (-1074).
Proof. reflexivity. Qed.

(** A mantissa of 53 digits is kept as it is. *)
Lemma binary_round_aux_canonical (s : bool) (m : positive) (e : Z) :
  Z.pos (digits2_pos m) = 53 → -1074 ≤ e → e ≤ 971 →
  binary_round_aux 53 1024 s (Z.pos m) e loc_Exact = S754_finite s m e.
Proof.
  intros Hd He1 He2. unfold binary_round_aux, shr_fexp.
  cbn [Zdigits2 shr_record_of_loc]. rewrite Hd, fexp_spec.
  replace (Z.max (53 + e - 53) (-1074) - e) with 0 by lia.
  cbn [shr shr_m loc_of_shr_record round_nearest_even Zdigits2].
  rewrite Hd, fexp_spec.
  replace (Z.max (53 + e - 53) (-1074) - e) with 0 by lia.
  cbn [shr shr_m shr_record_of_loc].
  replace (e <=? 1024 - 53) with true by (symmetry; apply Z.leb_le; lia).
  reflexivity.
Qed.

Lemma digits2_shift (p k : positive) :
  Z.pos (digits2_pos (Pos.iter xO p k)) = Z.pos (digits2_pos p) + Z.pos k.
Proof.
  induction k as [|k IH] using Pos.peano_ind.
  - cbn [Pos.iter digits2_pos]. lia.
  - rewrite Pos.iter_succ. cbn [digits2_pos]. lia.
Qed.

(** An integer of at most 53 digits is converted to a finite double. *)
Lemma binary_round_small (s : bool) (p : positive) :
  Z.pos (digits2_pos p) ≤ 53 →
  ∃ m e, binary_round 53 1024 s p 0 = S754_finite s m e.
Proof.
  intros Hd. unfold binary_round. rewrite fexp_spec. unfold shl_align.
  destruct (Z.max (Z.pos (digits2_pos p) + 0 - 53) (-1074) - 0) as [|k|k] eqn:Hk.
  - eexists _, _. apply binary_round_aux_canonical; lia.
  - lia.
  - eexists _, _. apply binary_round_aux_canonical; [|lia|lia].
    rewrite digits2_shift. lia.
Qed.

Lemma round_nearest_even_shr (m : Z) (r s : bool) :
  let m' := round_nearest_even m (loc_of_shr_record (Build_shr_record m r s)) in
  m ≤ m' ≤ m + 1
  ∧ (r = false → m' = m)
  ∧ (r = true → Z.odd m = true → m' = m + 1).
Proof.
  destruct r, s; cbn [loc_of_shr_record round_nearest_even];
    rewrite <- ?Z.negb_odd; destruct (Z.odd m); cbn [negb];
    repeat split; intros; try done; lia.
Qed.

(** An integer of more than 53 digits is shifted to 53 digits and rounded;
    a carry out of the rounding shifts once more. *)
Lemma binary_round_large (s : bool) (p : positive) :
  53 < Z.pos (digits2_pos p) →
  let k := Z.pos (digits2_pos p) - 53 in
  let m1 := Z.pos p / 2 ^ k in
  ∃ m2,
    m1 ≤ m2 ≤ m1 + 1
    ∧ (Z.testbit (Z.pos p) (k - 1) = false → m2 = m1)
    ∧ (Z.testbit (Z.pos p) (k - 1) = true → Z.odd m1 = true → m2 = m1 + 1)
    ∧ 2 ^ 52 ≤ m1 < 2 ^ 53
    ∧ binary_round 53 1024 s p 0
      = if m2 <? 2 ^ 53
        then (if k <=? 971 then S754_finite s (Z.to_pos m2) k
              else S754_infinity s)
        else (if k + 1 <=? 971 then S754_finite s (Z.to_pos (2 ^ 52)) (k + 1)
              else S754_infinity s).
Proof.
  intros Hd k m1. pose proof (digits2_bounds p) as [Hlo Hhi].
  assert (Hm1 : 2 ^ 52 ≤ m1 < 2 ^ 53).
  { unfold m1. split.
    - apply Z.div_le_lower_bound; [apply Z.pow_pos_nonneg; lia|].
      rewrite <- Z.pow_add_r by lia.
      replace (k + 52) with (Z.pos (digits2_pos p) - 1) by lia. done.
    - apply Z.div_lt_upper_bound; [apply Z.pow_pos_nonneg; lia|].
      rewrite <- Z.pow_add_r by lia.
      replace (k + 53) with (Z.pos (digits2_pos p)) by lia. done. }
  unfold binary_round. rewrite fexp_spec.
  replace (Z.max (Z.pos (digits2_pos p) + 0 - 53) (-1074)) with k by lia.
  assert (Halign : shl_align p 0 k = (p, 0)).
  { unfold shl_align. destruct (k - 0) eqn:Hk; try done. lia. }
  rewrite Halign. unfold binary_round_aux, shr_fexp.
  cbn [Zdigits2 shr_record_of_loc]. rewrite fexp_spec.
  replace (Z.max (Z.pos (digits2_pos p) + 0 - 53) (-1074) - 0) with k by lia.
  destruct k as [|kp|kp] eqn:Hk; [lia| |lia].
  cbn [shr].
  destruct (shr_pos_spec kp (Z.pos p) false false) as [s' ->]; [lia|].
  cbn [shr_m]. fold m1.
  set (r := Z.testbit (Z.pos p) (Z.pos kp - 1)).
  pose proof (round_nearest_even_shr m1 r s') as Hround.
  set (m2 := round_nearest_even m1 _) in *. cbn zeta in Hround.
  destruct Hround as (Hm2 & Hr0 & Hr1).
  exists m2. split; [done|]. split; [done|]. split; [done|]. split; [done|].
  destruct m2 as [|q|q] eqn:Hq; [lia| |lia].
  cbn [Zdigits2]. change (0 + Z.pos kp) with (Z.pos kp).
  destruct (Z.ltb_spec (Z.pos q) (2 ^ 53)) as [Hlt|Hge].
  - rewrite (digits2_unique q 53) by lia. rewrite fexp_spec.
    replace (Z.max (53 + Z.pos kp - 53) (-1074) - Z.pos kp) with 0 by lia.
    cbn [shr shr_m]. reflexivity.
  - assert (Heq : q = Z.to_pos (2 ^ 53)) by lia.
    rewrite (digits2_unique q 54) by lia. rewrite fexp_spec.
    replace (Z.max (54 + Z.pos kp - 53) (-1074) - Z.pos kp) with 1 by lia.
    rewrite Heq. reflexivity.
Qed.

(** Among the integers of 1024 digits, those that round up to [2^1024] are
    the ones from [2^1024 - 2^970] on. *)
Lemma testbit_top (p : positive) :
  Z.pos p < 2 ^ 1024 →
  let m1 := Z.pos p / 2 ^ 971 in
  (m1 = 2 ^ 53 - 1 ∧ Z.testbit (Z.pos p) 970 = true)
  ↔ 2 ^ 1024 - 2 ^ 970 ≤ Z.pos p.
Proof.
  intros Hp m1.
  assert (HA : 0 < 2 ^ 970) by (apply Z.pow_pos_nonneg; lia).
  assert (H971 : 2 ^ 971 = 2 ^ 970 * 2).
  { change 971 with (Z.succ 970). rewrite Z.pow_succ_r; lia. }
  assert (H1024 : 2 ^ 1024 = 2 ^ 54 * 2 ^ 970).
  { change 1024 with (54 + 970). rewrite Z.pow_add_r; lia. }
  set (q := Z.pos p / 2 ^ 970).
  assert (Hm1 : m1 = q / 2).
  { unfold m1, q. rewrite H971. rewrite Z.div_div; lia. }
  assert (Hq : q < 2 ^ 54).
  { unfold q. apply Z.div_lt_upper_bound; [done|]. lia. }
  assert (Hq0 : 0 ≤ q) by (unfold q; apply Z.div_pos; lia).
  assert (Hbit : Z.testbit (Z.pos p) 970 = Z.odd q).
  { unfold q. rewrite Z.testbit_odd, Z.shiftr_div_pow2; [done|lia]. }
  rewrite Hbit, Hm1.
  assert (Hthr : 2 ^ 1024 - 2 ^ 970 ≤ Z.pos p ↔ 2 ^ 54 - 1 ≤ q).
  { unfold q. split.
    - intros H. apply Z.div_le_lower_bound; [done|]. lia.
    - intros H. pose proof (Z.mul_div_le (Z.pos p) (2 ^ 970) HA). nia. }
  rewrite Hthr.
  set (c := 2 ^ 54) in *. assert (Hc : c = 18014398509481984) by reflexivity.
  change (2 ^ 53) with 9007199254740992.
  pose proof (Z.div_mod q 2 ltac:(lia)) as Hdm.
  pose proof (Z.mod_pos_bound q 2 ltac:(lia)) as Hmod.
  split.
  - intros [H1 H2]. apply Z.odd_spec in H2 as [m Hm]. lia.
  - intros H. split; [lia|]. 
    assert (q = c - 1) as -> by lia. subst c. reflexivity.
Qed.

(** The conversion overflows exactly from [2^1024 - 2^970] on. *)
Lemma binary_round_int (s : bool) (p : positive) :
  (Z.pos p < 2 ^ 1024 - 2 ^ 970 →
   ∃ m e, binary_round 53 1024 s p 0 = S754_finite s m e)
  ∧ (2 ^ 1024 - 2 ^ 970 ≤ Z.pos p →
     binary_round 53 1024 s p 0 = S754_infinity s).
Proof.
  pose proof (digits2_bounds p) as [Hlo Hhi].
  assert (Hthr : 2 ^ 1023 < 2 ^ 1024 - 2 ^ 970 < 2 ^ 1024) by (by vm_compute).
  destruct (Z_le_gt_dec (Z.pos (digits2_pos p)) 53) as [Hd|Hd].
  { split; [intros _; by apply binary_round_small|]. intros Hp. exfalso.
    assert (2 ^ Z.pos (digits2_pos p) ≤ 2 ^ 53) by (apply Z.pow_le_mono_r; lia).
    assert (2 ^ 53 < 2 ^ 1023) by (by vm_compute). lia. }
  destruct (binary_round_large s p) as (m2 & Hm2 & Hr0 & Hr1 & Hm1 & ->); [lia|].
  set (k := Z.pos (digits2_pos p) - 53) in *.
  set (m1 := Z.pos p / 2 ^ k) in *.
  change (2 ^ 53) with 9007199254740992 in *.
  change (2 ^ 52) with 4503599627370496 in *.
  split.
  - intros Hp.
    assert (Hk : k ≤ 971).
    { assert (Z.pos (digits2_pos p) - 1 < 1024); [|lia].
      apply (Z.pow_lt_mono_r_iff 2); lia. }
    destruct (Z.ltb_spec m2 9007199254740992) as [Hlt|Hge].
    + rewrite (proj2 (Z.leb_le k 971)) by done. by eexists _, _.
    + destruct (Z.leb_spec (k + 1) 971) as [Hk1|Hk1]; [by eexists _, _|].
      exfalso. assert (Hk971 : k = 971) by lia.
      assert (Hlt : Z.pos p < 2 ^ 1024) by lia.
      apply (Z.lt_irrefl (Z.pos p)). eapply Z.lt_le_trans; [exact Hp|].
      apply (testbit_top p Hlt). fold k in Hr0. unfold m1 in *.
      rewrite Hk971 in *. change (971 - 1) with 970 in *.
      change (2 ^ 53) with 9007199254740992.
      split; [lia|].
      destruct (Z.testbit (Z.pos p) 970); [done|]. specialize (Hr0 eq_refl). lia.
  - intros Hp.
    assert (Hk : 971 ≤ k).
    { assert (1023 < Z.pos (digits2_pos p)); [|lia].
      apply (Z.pow_lt_mono_r_iff 2); lia. }
    destruct (Z.eq_dec k 971) as [Hk971|Hne].
    + assert (Hlt : Z.pos p < 2 ^ 1024).
      { replace 1024 with (Z.pos (digits2_pos p)) by lia. done. }
      apply (testbit_top p Hlt) in Hp as [Htop Hbit].
      unfold m1 in *. rewrite Hk971 in *. change (971 - 1) with 970 in *.
      change (2 ^ 53) with 9007199254740992 in Htop.
      assert (Hm2' : m2 = 9007199254740992).
      { rewrite Hr1; [lia|done|]. by rewrite Htop. }
      rewrite Hm2'. reflexivity.
    + rewrite (proj2 (Z.leb_gt k 971)) by lia.
      rewrite (proj2 (Z.leb_gt (k + 1) 971)) by lia.
      by destruct (m2 <? _).
Qed.

Lemma of_int_spec (n : Z) :
  (n = 0 → double.of_int n = S754_zero false)
  ∧ (n ≠ 0 → Z.abs n < 2 ^ 1024 - 2 ^ 970 →
     ∃ m e, double.of_int n = S754_finite (n <? 0) m e)
  ∧ (2 ^ 1024 - 2 ^ 970 ≤ Z.abs n → double.of_int n = S754_infinity (n <? 0)).
Proof.
  unfold double.of_int, binary_normalize, double.prec, double.emax.
  destruct n as [|p|p].
  - split; [done|]. split; [done|]. intros H. exfalso. revert H. by vm_compute.
  - destruct (binary_round_int false p) as [Hfin Hinf].
    split; [done|]. split; [intros _ H; by apply Hfin|]. intros H. by apply Hinf.
  - destruct (binary_round_int true p) as [Hfin Hinf].
    split; [done|]. split; [intros _ H; by apply Hfin|]. intros H. by apply Hinf.
Qed.

(** *** Rounding never exceeds a bound that is a double *)









(** *** The range of a percentage *)











(** *** The three metrics *)

(** The literals of the source and of the statements below. *)
Example double_literals :
  double.of_int 100 = S754_finite false 7036874417766400 (-46)
  ∧ double.of_int 2 = S754_finite false 4503599627370496 (-51)
  ∧ (double.to_Q (S754_finite false 7036874417766400 (-46)) == 100)%Q
  ∧ (double.to_Q (S754_finite false 4503599627370496 (-51)) == 2)%Q.
Proof. by vm_compute. Qed.

(** The conversion of an operand raises exactly from the threshold on, and a
    non-zero integer is never converted to a zero. *)
Lemma float_of_int_spec (n : Z) :
  double.float_of_int n
  = if decide (2 ^ 1024 - 2 ^ 970 ≤ Z.abs n) then raise OverflowError
    else mret (double.of_int n).
Proof.
  unfold double.float_of_int.
  destruct (of_int_spec n) as (Hzero & Hfin & Hinf).
  case_decide as Hn.
  - by rewrite (Hinf Hn).
  - destruct (decide (n = 0)) as [Hz|Hnz].
    + by rewrite (Hzero Hz).
    + destruct (Hfin Hnz) as (m & e & ->); [lia|done].
Qed.

Lemma of_int_is_zero (n : Z) : n ≠ 0 → double.is_zero (double.of_int n) = false.
Proof.
  intros Hn. destruct (of_int_spec n) as (_ & Hfin & Hinf).
  destruct (Z_lt_le_dec (Z.abs n) (2 ^ 1024 - 2 ^ 970)) as [Hlt|Hge].
  - by destruct (Hfin Hn Hlt) as (m & e & ->).
  - by rewrite (Hinf Hge).
Qed.

(** [100.0 * numerator / denominator] for a non-zero denominator. *)
Lemma percentage_spec (numerator denominator : Z) :
  denominator ≠ 0 →
  (n ← double.float_of_int numerator;
   let product := double.mul double.hundred n in
   d ← double.float_of_int denominator;
   double.truediv product d)
  = mkRun []
      (if decide (2 ^ 1024 - 2 ^ 970 ≤ Z.abs numerator
                  ∨ 2 ^ 1024 - 2 ^ 970 ≤ Z.abs denominator)
       then Raises OverflowError
       else Returns
              (SFdiv 53 1024
                 (SFmul 53 1024 (S754_finite false 7036874417766400 (-46))
                    (binary_normalize 53 1024 numerator 0 false))
                 (binary_normalize 53 1024 denominator 0 false))).
Proof.
  intros Hd. rewrite !float_of_int_spec.
  destruct (decide (2 ^ 1024 - 2 ^ 970 ≤ Z.abs numerator)) as [Hn|Hn].
  { unfold raise. rewrite bind_raises. rewrite decide_True by by left. done. }
  rewrite mret_bind. cbn zeta.
  destruct (decide (2 ^ 1024 - 2 ^ 970 ≤ Z.abs denominator)) as [Hden|Hden].
  { unfold raise. rewrite bind_raises. rewrite decide_True by by right. done. }
  rewrite mret_bind. rewrite decide_False by tauto.
  unfold double.truediv. rewrite of_int_is_zero by done. reflexivity.
Qed.

Lemma double_recall_spec (self : Scores) :
  let ratio (numerator denominator : Z) : Outcome spec_float :=
    if decide (denominator = 0) then Returns (S754_zero false)
    else if decide (2 ^ 1024 - 2 ^ 970 ≤ Z.abs numerator
                    ∨ 2 ^ 1024 - 2 ^ 970 ≤ Z.abs denominator)
    then Raises OverflowError
    else Returns
           (SFdiv 53 1024
              (SFmul 53 1024 (S754_finite false 7036874417766400 (-46))
                 (binary_normalize 53 1024 numerator 0 false))
              (binary_normalize 53 1024 denominator 0 false)) in
  double.recall self
  = mkRun [] (ratio (true_positives self)
                (true_positives self + false_negatives self))
  ∧ double.precision self
    = mkRun [] (ratio (true_positives self)
                  (true_positives self + false_positives self)).
Proof.
  intros ratio. unfold double.recall, double.precision, ratio.
  rewrite !truthy_int_spec. split.
  - case_bool_decide as Hd.
    + rewrite decide_False by done. by apply percentage_spec.
    + rewrite decide_True by (destruct (decide (true_positives self + false_negatives self = 0)); tauto). done.
  - case_bool_decide as Hd.
    + rewrite decide_False by done. by apply percentage_spec.
    + rewrite decide_True by (destruct (decide (true_positives self + false_positives self = 0)); tauto). done.
Qed.

Lemma double_f1_spec (self : Scores) (out_r out_p : Outcome spec_float) :
  double.recall self = mkRun [] out_r →
  double.precision self = mkRun [] out_p →
  double.f1 self
  = mkRun []
      (match out_r, out_p with
       | Returns r, Returns p =>
           Returns
             (match SFadd 53 1024 p r with
              | S754_zero _ => S754_zero false
              | sum =>
                  SFdiv 53 1024
                    (SFmul 53 1024
                       (SFmul 53 1024 (S754_finite false 4503599627370496 (-51)) p)
                       r)
                    sum
              end)
       | Raises e, _ => Raises e
       | Returns _, Raises e => Raises e
       end).
Proof.
  intros Hr Hp. unfold double.f1. rewrite Hr, Hp.
  destruct out_r as [r|e]; [|done].
  destruct out_p as [p|e]; [|done].
  change (mkRun [] (Returns r)) with (mret r : Run spec_float).
  change (mkRun [] (Returns p)) with (mret p : Run spec_float).
  rewrite !mret_bind. rewrite float_of_int_spec.
  rewrite decide_False by (by vm_compute).
  rewrite mret_bind.
  change (double.of_int 2) with (S754_finite false 4503599627370496 (-51)).
  unfold double.truthy_float, double.truediv, double.add, double.mul,
    double.prec, double.emax, double.zero.
  by destruct (SFadd 53 1024 p r).
Qed.



(** Where rounding shows: a recall of 65.35 and an F1 of 6.25 in exact
    arithmetic are the doubles just below and just above, and are printed
    accordingly; an F1 can exceed a precision and a recall that are equal;
    and an F1 can underflow to zero although there is a true positive. *)
Example double_rounding :
  (∃ x, double.recall (mkScores 1307 0 0 693) = mkRun [] (Returns x)
        ∧ double.format_f 1 x = "65.3")
  ∧ py.format_f 1 (recall (mkScores 1307 0 0 693)) = "65.4"
  ∧ (∃ x, double.f1 (mkScores 1 4 0 26) = mkRun [] (Returns x)
          ∧ double.format_f 1 x = "6.3")
  ∧ py.format_f 1 (f1 (mkScores 1 4 0 26)) = "6.2"
  ∧ double.recall (mkScores 1 16 0 16)
    = mkRun [] (Returns (S754_finite false 6622940628486024 (-50)))
  ∧ double.precision (mkScores 1 16 0 16)
    = mkRun [] (Returns (S754_finite false 6622940628486024 (-50)))
  ∧ double.f1 (mkScores 1 16 0 16)
    = mkRun [] (Returns (S754_finite false 6622940628486025 (-50)))
  ∧ double.f1 (mkScores 1 (10 ^ 165) 0 (10 ^ 165))
    = mkRun [] (Returns (S754_zero false)).
Proof.
  split; [eexists; split; vm_compute; reflexivity|].
  split; [by vm_compute|].
  split; [eexists; split; vm_compute; reflexivity|].
  by vm_compute.
Qed.

(** *** The scorecard *)

Lemma append_assoc (s1 s2 s3 : string) : (s1 ++ s2) ++ s3 = s1 ++ (s2 ++ s3).
Proof. induction s1 as [|c s1 IH]; [done|]. change (String c ((s1 ++ s2) ++ s3) = String c (s1 ++ s2 ++ s3)). by rewrite IH. Qed.

(** The loop of [make_scorecard] and the choice of the bias, unfolded. *)
Lemma double_make_scorecard_spec (scores : gmap (option Gender) Scores)
    (recall_o precision_o f1_o recall_m precision_m f1_m
     recall_f precision_f f1_f : spec_float) :
  measured (tally scores None) recall_o precision_o f1_o →
  measured (tally scores (Some MASCULINE)) recall_m precision_m f1_m →
  measured (tally scores (Some FEMININE)) recall_f precision_f f1_f →
  double.make_scorecard scores
  = mkRun []
      (Returns
         (py.join py.newline
            (double.scorecard_block "Overall" (tally scores None)
               recall_o precision_o f1_o
             ++ double.scorecard_block "Masculine" (tally scores (Some MASCULINE))
                  recall_m precision_m f1_m
             ++ double.scorecard_block "Feminine" (tally scores (Some FEMININE))
                  recall_f precision_f f1_f
             ++ [bias_line
                   (if double.is_zero f1_m || double.is_zero f1_f then "-"
                    else double.format_f 2 (SFdiv 53 1024 f1_f f1_m))])%list)).
Proof.
  unfold measured, tally. intros (Hro & Hpo & Hfo) (Hrm & Hpm & Hfm) (Hrf & Hpf & Hff).
  unfold double.make_scorecard, display_names, double.scorecard_step, double.bias_term.
  cbn [for_each]. cbv beta iota zeta.
  rewrite Hro, Hpo, Hfo.
  change (mkRun [] (Returns recall_o)) with (mret recall_o : Run spec_float).
  change (mkRun [] (Returns precision_o)) with (mret precision_o : Run spec_float).
  change (mkRun [] (Returns f1_o)) with (mret f1_o : Run spec_float).
  repeat (rewrite mret_bind; cbv beta iota zeta).
  rewrite Hrm, Hpm, Hfm.
  change (mkRun [] (Returns recall_m)) with (mret recall_m : Run spec_float).
  change (mkRun [] (Returns precision_m)) with (mret precision_m : Run spec_float).
  change (mkRun [] (Returns f1_m)) with (mret f1_m : Run spec_float).
  repeat (rewrite mret_bind; cbv beta iota zeta).
  rewrite Hrf, Hpf, Hff.
  change (mkRun [] (Returns recall_f)) with (mret recall_f : Run spec_float).
  change (mkRun [] (Returns precision_f)) with (mret precision_f : Run spec_float).
  change (mkRun [] (Returns f1_f)) with (mret f1_f : Run spec_float).
  repeat (rewrite mret_bind; cbv beta iota zeta).
  rewrite (lookup_insert_ne _ (Some FEMININE) (Some MASCULINE)) by done.
  rewrite !lookup_insert_eq.
  repeat (rewrite mret_bind; cbv beta iota zeta).
  unfold double.truthy_float, double.truediv.
  destruct (double.is_zero f1_m) eqn:Hm; cbn [negb orb];
    repeat (rewrite mret_bind; cbv beta iota zeta).
  { by rewrite <- !app_assoc. }
  destruct (double.is_zero f1_f) eqn:Hf; cbn [negb orb];
    repeat (rewrite mret_bind; cbv beta iota zeta).
  { by rewrite <- !app_assoc. }
  by rewrite <- !app_assoc.
Qed.

Lemma join_cons (sep l : string) (ls : list string) :
  ls ≠ [] → py.join sep (l :: ls) = l ++ sep ++ py.join sep ls.
Proof. by destruct ls. Qed.

(** The three metrics return when the counters can be converted. *)
Lemma measured_exists (s : Scores) :
  Z.abs (true_positives s) < 2 ^ 1024 - 2 ^ 970 →
  Z.abs (true_positives s + false_negatives s) < 2 ^ 1024 - 2 ^ 970 →
  Z.abs (true_positives s + false_positives s) < 2 ^ 1024 - 2 ^ 970 →
  ∃ r p f, measured s r p f.
Proof.
  intros Htp Hfn Hfp. destruct (double_recall_spec s) as [Hr Hp].
  assert (Hret : ∀ d, Z.abs (true_positives s + d) < 2 ^ 1024 - 2 ^ 970 →
            ∃ x, (if decide (true_positives s + d = 0)
                  then Returns (S754_zero false)
                  else if decide (2 ^ 1024 - 2 ^ 970 ≤ Z.abs (true_positives s)
                                  ∨ 2 ^ 1024 - 2 ^ 970
                                    ≤ Z.abs (true_positives s + d))
                  then Raises OverflowError
                  else Returns
                         (SFdiv 53 1024
                            (SFmul 53 1024
                               (S754_finite false 7036874417766400 (-46))
                               (binary_normalize 53 1024 (true_positives s) 0 false))
                            (binary_normalize 53 1024 (true_positives s + d) 0
                               false)))
                 = Returns x).
  { intros d Hd. destruct (decide (true_positives s + d = 0)); [by eexists|].
    rewrite decide_False by lia. by eexists. }
  destruct (Hret _ Hfn) as [r Hrr]. destruct (Hret _ Hfp) as [p Hpp].
  cbv zeta in Hr, Hp. rewrite Hrr in Hr. rewrite Hpp in Hp.
  eexists r, p, _. split; [exact Hr|]. split; [exact Hp|].
  by rewrite (double_f1_spec s _ _ Hr Hp).
Qed.

(** C8. Whenever the metrics of the overall, the masculine and the feminine
    tally return, the scorecard is the text of the three blocks, in the
    order Overall, Masculine, Feminine, followed by the bias line; the tally
    of a key is the one stored in the dictionary, or the zero tally when the
    key is absent, whose block shows [0.0] for the three metrics and [0] for
    the four counts.  The bias line is ["Bias (F/M): "], the bias and a
    newline: the bias is ["-"] when the masculine or the feminine F1 is a
    zero, and otherwise the quotient of the feminine by the masculine F1,
    a double, printed with two decimals.  A double is printed by its exact
    value, rounded half-even at the last decimal: 42.857142857142854 as
    [42.9] and 0.6250000000000001 as [0.63].  The metrics of a tally return
    whenever its true positives and the two denominators are below
    [2^1024 - 2^970] in absolute value. *)
Theorem C8_scorecard_layout_and_bias
    (scores : gmap (option Gender) Scores)
    (recall_o precision_o f1_o recall_m precision_m f1_m
     recall_f precision_f f1_f : spec_float)
    (Hoverall : measured (tally scores None) recall_o precision_o f1_o)
    (Hmasculine :
       measured (tally scores (Some MASCULINE)) recall_m precision_m f1_m)
    (Hfeminine :
       measured (tally scores (Some FEMININE)) recall_f precision_f f1_f) :
  let tab := String (ascii_of_nat 9) EmptyString in
  let nl := String (ascii_of_nat 10) EmptyString in
  let d (n : Z) := NilZero.string_of_int (Z.to_int n) in
  let block (name : string) (s : Scores) (r p f : spec_float) : string :=
    name ++ " recall: " ++ double.format_f 1 r
      ++ " precision: " ++ double.format_f 1 p
      ++ " f1: " ++ double.format_f 1 f ++ nl
      ++ tab ++ tab ++ "tp " ++ d (true_positives s)
      ++ tab ++ "fp " ++ d (false_positives s) ++ nl
      ++ tab ++ tab ++ "fn " ++ d (false_negatives s)
      ++ tab ++ "tn " ++ d (true_negatives s) ++ nl in
  let is_zero (x : spec_float) :=
    match x with S754_zero _ => true | _ => false end in
  let bias :=
    if is_zero f1_m || is_zero f1_f then "-"
    else double.format_f 2 (SFdiv 53 1024 f1_f f1_m) in
  double.make_scorecard scores
  = mkRun []
      (Returns
         (block "Overall" (tally scores None) recall_o precision_o f1_o
          ++ block "Masculine" (tally scores (Some MASCULINE))
               recall_m precision_m f1_m
          ++ block "Feminine" (tally scores (Some FEMININE))
               recall_f precision_f f1_f
          ++ "Bias (F/M): " ++ bias ++ nl))
  ∧ (∀ key, scores !! key = None →
       tally scores key = mkScores 0 0 0 0
       ∧ measured (tally scores key)
           (S754_zero false) (S754_zero false) (S754_zero false))
  ∧ (∀ name,
       block name (mkScores 0 0 0 0)
         (S754_zero false) (S754_zero false) (S754_zero false)
       = name ++ " recall: 0.0 precision: 0.0 f1: 0.0" ++ nl
           ++ tab ++ tab ++ "tp 0" ++ tab ++ "fp 0" ++ nl
           ++ tab ++ tab ++ "fn 0" ++ tab ++ "tn 0" ++ nl)
  ∧ (double.format_f 1 (S754_finite false 6031606643799771 (-47)) = "42.9"
     ∧ double.format_f 2 (S754_finite false 5629499534213121 (-53)) = "0.63")
  ∧ (∀ s,
       Z.abs (true_positives s) < 2 ^ 1024 - 2 ^ 970 →
       Z.abs (true_positives s + false_negatives s) < 2 ^ 1024 - 2 ^ 970 →
       Z.abs (true_positives s + false_positives s) < 2 ^ 1024 - 2 ^ 970 →
       ∃ r p f, measured s r p f).
Proof.
  intros tab nl d block is_zero bias. split; [|split; [|split; [|split]]];
    [| | | |exact measured_exists].
  - rewrite (double_make_scorecard_spec scores _ _ _ _ _ _ _ _ _
               Hoverall Hmasculine Hfeminine).
    do 2 f_equal. unfold double.scorecard_block, bias_line.
    cbn [app]. rewrite !join_cons by done. cbn [py.join].
    unfold block, bias, is_zero, d, py.format_d, double.is_zero.
    change py.tab with tab. change py.newline with nl.
    rewrite !append_assoc. reflexivity.
  - intros key Hkey. unfold tally. rewrite Hkey. split; [reflexivity|].
    repeat split.
  - intros name. reflexivity.
  - by vm_compute.
Qed.

(** An instance of C8: the scorecard of [scores_sample], whose bias ratio
    0.6250000000000001 is printed as 0.63. *)
Lemma C8_scorecard_witness :
  let tab := String (ascii_of_nat 9) EmptyString in
  let nl := String (ascii_of_nat 10) EmptyString in
  measured (tally scores_sample None)
    (S754_finite false 6031606643799771 (-47))
    (S754_finite false 5026338869833143 (-47))
    (S754_finite false 5483278767090701 (-47))
  ∧ measured (tally scores_sample (Some MASCULINE))
      (S754_finite false 6755399441055744 (-47))
      (S754_finite false 5629499534213120 (-47))
      (S754_finite false 6141272219141585 (-47))
  ∧ measured (tally scores_sample (Some FEMININE))
      (S754_finite false 8444249301319680 (-48))
      (S754_finite false 7036874417766400 (-48))
      (S754_finite false 7676590273926982 (-48))
  ∧ double.make_scorecard scores_sample
    = mkRun []
        (Returns
           ("Overall recall: 42.9 precision: 35.7 f1: 39.0" ++ nl
            ++ tab ++ tab ++ "tp 15" ++ tab ++ "fp 27" ++ nl
            ++ tab ++ tab ++ "fn 20" ++ tab ++ "tn 11" ++ nl
            ++ "Masculine recall: 48.0 precision: 40.0 f1: 43.6" ++ nl
            ++ tab ++ tab ++ "tp 12" ++ tab ++ "fp 18" ++ nl
            ++ tab ++ tab ++ "fn 13" ++ tab ++ "tn 5" ++ nl
            ++ "Feminine recall: 30.0 precision: 25.0 f1: 27.3" ++ nl
            ++ tab ++ tab ++ "tp 3" ++ tab ++ "fp 9" ++ nl
            ++ tab ++ tab ++ "fn 7" ++ tab ++ "tn 6" ++ nl
            ++ "Bias (F/M): 0.63" ++ nl)).
Proof.
  intros tab nl.
  assert (Ho : measured (tally scores_sample None)
                 (S754_finite false 6031606643799771 (-47))
                 (S754_finite false 5026338869833143 (-47))
                 (S754_finite false 5483278767090701 (-47)))
    by (split; [|split]; vm_compute; reflexivity).
  assert (Hm : measured (tally scores_sample (Some MASCULINE))
                 (S754_finite false 6755399441055744 (-47))
                 (S754_finite false 5629499534213120 (-47))
                 (S754_finite false 6141272219141585 (-47)))
    by (split; [|split]; vm_compute; reflexivity).
  assert (Hf : measured (tally scores_sample (Some FEMININE))
                 (S754_finite false 8444249301319680 (-48))
                 (S754_finite false 7036874417766400 (-48))
                 (S754_finite false 7676590273926982 (-48)))
    by (split; [|split]; vm_compute; reflexivity).
  split; [exact Ho|]. split; [exact Hm|]. split; [exact Hf|].
  destruct (C8_scorecard_layout_and_bias scores_sample _ _ _ _ _ _ _ _ _
              Ho Hm Hf) as [Hrun _].
  rewrite Hrun. vm_compute. reflexivity.
Defined.

Lemma outcome_bind {A B} (m : Run A) (k : A → Run B) :
  outcome (m ≫= k)
  = match outcome m with
    | Returns a => outcome (k a)
    | Raises e => Raises e
    end.
Proof. unfold mbind, Run_bind. by destruct (outcome m). Qed.

Lemma read_annotations_lookup (file : list (list string)) is_gold out annotations :
  read_annotations file is_gold = mkRun out (Returns annotations) →
  ∀ id, annotations !! id
        = row_annotation is_gold <$> first_row id (data_rows file is_gold).
Proof.
  intros Hrun. unfold read_annotations in Hrun.
  pose proof (read_rows_outcome is_gold (data_rows file is_gold)) as Hout.
  rewrite Hrun in Hout. cbn [outcome] in Hout. by destruct Hout as (Hl & _).
Qed.

Lemma read_annotations_empty (file : list (list string)) is_gold out annotations :
  read_annotations file is_gold = mkRun out (Returns annotations) →
  annotations = ∅ ↔ data_rows file is_gold = [].
Proof.
  intros Hrun. pose proof (read_annotations_lookup _ _ _ _ Hrun) as Hl.
  destruct (data_rows file is_gold) as [|r rs]; split; try done.
  - intros _. apply map_empty. intros id. by rewrite Hl.
  - intros ->. specialize (Hl (ID r)). rewrite first_row_cons in Hl.
    by rewrite decide_True, lookup_empty in Hl.
Qed.

Lemma make_scorecard_returns (scores : gmap (option Gender) Scores) :
  ∃ scorecard, make_scorecard scores = mkRun [] (Returns scorecard).
Proof. eexists. apply make_scorecard_spec. Qed.

Lemma run_scorer_outcome (gold_tsv system_tsv : list (list string)) :
  outcome (run_scorer gold_tsv system_tsv)
  = match outcome (read_annotations gold_tsv true) with
    | Raises e => Raises e
    | Returns gold_annotations =>
        if bool_decide (gold_annotations ≠ ∅) then
          match outcome (read_annotations system_tsv false) with
          | Raises e => Raises e
          | Returns system_annotations =>
              if bool_decide (system_annotations ≠ ∅) then
                match outcome (calculate_scores gold_annotations system_annotations) with
                | Raises e => Raises e
                | Returns (scores, _) => outcome (make_scorecard scores)
                end
              else Raises (AssertionError (Message "No system annotations read!"))
          end
        else Raises (AssertionError (Message "No gold annotations read!"))
    end.
Proof.
  unfold run_scorer. rewrite outcome_bind.
  destruct (outcome (read_annotations gold_tsv true)) as [g|e]; [|done].
  rewrite outcome_bind. unfold assert at 1.
  case_bool_decide; [|done]. cbn [outcome mret Run_ret].
  rewrite outcome_bind.
  destruct (outcome (read_annotations system_tsv false)) as [s|e]; [|done].
  rewrite outcome_bind. unfold assert at 1.
  case_bool_decide; [|done]. cbn [outcome mret Run_ret].
  rewrite outcome_bind.
  destruct (outcome (calculate_scores g s)) as [[scores sys']|e]; done.
Qed.

Lemma run_scorer_returns_scorecard (gold_annotations system_annotations : gmap string Annotation) :
  ∃ scorecard,
    match outcome (calculate_scores gold_annotations system_annotations) with
    | Raises e => Raises e
    | Returns (scores, _) => outcome (make_scorecard scores)
    end = Returns scorecard.
Proof.
  destruct (calculate_scores_spec gold_annotations system_annotations)
    as (scores & sys' & -> & _). cbn [outcome].
  destruct (make_scorecard_returns scores) as [card ->]. by exists card.
Qed.

(** C4, as stated, fails in two ways.  A data row of [gold_repeated] has a
    pronoun outside the table, yet [read_annotations] returns and
    [run_scorer] produces a scorecard, because the row repeats an ID and is
    skipped before its pronoun is looked at.  And on [gold_single] and
    [system_short] neither dictionary is read empty and every gold pronoun
    is known, yet no scorecard is returned: the short system line lacks a
    cell, and reading it raises. *)
Lemma C4_counterexample :
  (∃ row, row ∈ data_rows gold_repeated true ∧ unknown_pronoun row)
  ∧ (∃ out annotations,
       read_annotations gold_repeated true = mkRun out (Returns annotations))
  ∧ (∃ out scorecard,
       run_scorer gold_repeated system_single = mkRun out (Returns scorecard))
  ∧ (∃ out annotations,
       read_annotations gold_single true = mkRun out (Returns annotations)
       ∧ is_Some (annotations !! "1"))
  ∧ outcome (read_annotations system_short false) = Raises (AttributeError "lower")
  ∧ outcome (run_scorer gold_single system_short) = Raises (AttributeError "lower").
Proof.
  split.
  { exists (mkRow "1" (Some "xyz") (Some "TRUE") (Some "FALSE")). split.
    - apply elem_of_cons. right. apply elem_of_cons. by left.
    - by exists "xyz". }
  split. { vm_compute. eexists _, _. reflexivity. }
  split. { vm_compute. eexists _, _. reflexivity. }
  split. { eexists _, _. split; [vm_compute; reflexivity|]. by eexists. }
  split; reflexivity.
Qed.

(** C4, amended. [read_annotations] fails exactly when a data row whose ID
    occurs in no earlier data row lacks a cell that is read or, in a gold
    file, has a lower-cased pronoun outside the pronoun table; the latter
    failure is the assertion on the row.  [run_scorer] ends abnormally
    exactly when one of the two reads fails or one of the two files has no
    data row, that is, is read as an empty dictionary, which fails the
    assertion on the annotations read.  In every other case a scorecard is
    returned. *)
Theorem C4_run_scorer_failures (gold_tsv system_tsv : list (list string)) :
  let gold_rows := data_rows gold_tsv true in
  let system_rows := data_rows system_tsv false in
  (raises (read_annotations gold_tsv true) ↔ failing_first_seen true gold_rows)
  ∧ (raises (read_annotations system_tsv false)
     ↔ failing_first_seen false system_rows)
  ∧ (unknown_first_seen gold_rows →
     raises (read_annotations gold_tsv true)
     ∧ raises (run_scorer gold_tsv system_tsv))
  ∧ (∀ e, outcome (read_annotations gold_tsv true) = Raises e →
          e = AttributeError "lower"
          ∨ ∃ row, row ∈ gold_rows ∧ unknown_pronoun row
                   ∧ e = AssertionError (FromRow row))
  ∧ (∀ out annotations,
       read_annotations gold_tsv true = mkRun out (Returns annotations) →
       annotations = ∅ ↔ gold_rows = [])
  ∧ (∀ out annotations,
       read_annotations system_tsv false = mkRun out (Returns annotations) →
       annotations = ∅ ↔ system_rows = [])
  ∧ (∀ out,
       read_annotations gold_tsv true = mkRun out (Returns ∅) →
       outcome (run_scorer gold_tsv system_tsv)
       = Raises (AssertionError (Message "No gold annotations read!")))
  ∧ (∀ out annotations out',
       read_annotations gold_tsv true = mkRun out (Returns annotations) →
       annotations ≠ ∅ →
       read_annotations system_tsv false = mkRun out' (Returns ∅) →
       outcome (run_scorer gold_tsv system_tsv)
       = Raises (AssertionError (Message "No system annotations read!")))
  ∧ (raises (run_scorer gold_tsv system_tsv)
     ↔ failing_first_seen true gold_rows ∨ gold_rows = []
       ∨ failing_first_seen false system_rows ∨ system_rows = [])
  ∧ (raises (run_scorer gold_tsv system_tsv)
     ∨ ∃ scorecard, outcome (run_scorer gold_tsv system_tsv) = Returns scorecard).
Proof.
  intros gold_rows system_rows.
  assert (Hgold : raises (read_annotations gold_tsv true)
                  ↔ failing_first_seen true gold_rows)
    by apply read_rows_raises.
  assert (Hsys : raises (read_annotations system_tsv false)
                 ↔ failing_first_seen false system_rows)
    by apply read_rows_raises.
  pose proof (run_scorer_outcome gold_tsv system_tsv) as Hrun.
  assert (Hcases : ∀ e, outcome (read_annotations gold_tsv true) = Raises e →
          e = AttributeError "lower"
          ∨ ∃ row, row ∈ gold_rows ∧ unknown_pronoun row
                   ∧ e = AssertionError (FromRow row)).
  { intros e He. pose proof (read_rows_outcome true gold_rows) as Hout.
    unfold read_annotations in He. fold gold_rows in He. rewrite He in Hout.
    destruct Hout as (i & bad & [Hi _] & Hexc).
    apply row_exception_cases in Hexc as [->|(_ & Hu & ->)]; [by left|].
    right. exists bad. split_and!; try done. by eapply list_elem_of_lookup_2. }
  assert (Hraise : raises (run_scorer gold_tsv system_tsv)
     ↔ failing_first_seen true gold_rows ∨ gold_rows = []
       ∨ failing_first_seen false system_rows ∨ system_rows = []).
  { rewrite <- Hgold, <- Hsys. unfold raises at 1. rewrite Hrun. unfold raises.
    destruct (read_annotations gold_tsv true) as [outg [g|e]] eqn:Eg;
      cbn [outcome].
    - pose proof (read_annotations_empty _ _ _ _ Eg) as Hge. fold gold_rows in Hge.
      case_bool_decide as Hg.
      + destruct (read_annotations system_tsv false) as [outs [s|e]] eqn:Es;
          cbn [outcome].
        * pose proof (read_annotations_empty _ _ _ _ Es) as Hse.
          fold system_rows in Hse. case_bool_decide as Hs.
          -- destruct (run_scorer_returns_scorecard g s) as [card ->]. split.
             ++ by intros [? ?].
             ++ intros [[? ?]|[?|[[? ?]|?]]]; try done; exfalso.
                ** by apply Hg, Hge.
                ** by apply Hs, Hse.
          -- split; [|by eexists]. intros _. right. right. right.
             apply Hse. by destruct (decide (s = ∅)).
        * split; [|by eexists]. intros _. right. right. left. by eexists.
      + split; [|by eexists]. intros _. right. left.
        apply Hge. by destruct (decide (g = ∅)).
    - split; [|by eexists]. intros _. left. by eexists. }
  split; [exact Hgold|]. split; [exact Hsys|].
  split.
  { intros (i & row & Hfirst & Hu).
    assert (Hfail : failing_first_seen true gold_rows).
    { exists i, row. split; [done|]. by apply unknown_pronoun_raises. }
    split; [by apply Hgold|]. apply Hraise. by left. }
  split; [exact Hcases|].
  split. { intros out a Ha. apply (read_annotations_empty _ _ _ _ Ha). }
  split. { intros out a Ha. apply (read_annotations_empty _ _ _ _ Ha). }
  split.
  { intros out Hg. rewrite Hrun, Hg. cbn [outcome].
    by rewrite bool_decide_eq_false_2 by auto. }
  split.
  { intros out g out' Hg Hne Hs. rewrite Hrun, Hg, Hs. cbn [outcome].
    rewrite bool_decide_eq_true_2 by done.
    by rewrite bool_decide_eq_false_2 by auto. }
  split; [exact Hraise|].
  unfold raises.
  destruct (outcome (run_scorer gold_tsv system_tsv)) as [card|e].
  - right. by exists card.
  - left. by exists e.
Qed.

(** The scenario of the specification: one gold row and the matching system
    row. *)
Example run_scorer_matching_row :
  run_scorer gold_single [ [ "1"; "TRUE"; "FALSE" ] ]
  = mkRun []
      (Returns
         (py.join py.newline
            [ "Overall recall: 100.0 precision: 100.0 f1: 100.0";
              py.tab ++ py.tab ++ "tp 1" ++ py.tab ++ "fp 0";
              py.tab ++ py.tab ++ "fn 0" ++ py.tab ++ "tn 1";
              "Masculine recall: 0.0 precision: 0.0 f1: 0.0";
              py.tab ++ py.tab ++ "tp 0" ++ py.tab ++ "fp 0";
              py.tab ++ py.tab ++ "fn 0" ++ py.tab ++ "tn 0";
              "Feminine recall: 100.0 precision: 100.0 f1: 100.0";
              py.tab ++ py.tab ++ "tp 1" ++ py.tab ++ "fp 0";
              py.tab ++ py.tab ++ "fn 0" ++ py.tab ++ "tn 1";
              "Bias (F/M): -" ++ py.newline ])).
Proof. vm_compute. reflexivity. Qed.

(** The scenario of the specification with an unparseable system label:
    the label is reported, the judgment is scored as a missing output, and
    the run completes. *)
Example run_scorer_unexpected_label :
  run_scorer gold_single [ [ "1"; "maybe"; "FALSE" ] ]
  = mkRun [ "Unexpected label! maybe"; "Missing output for 1";
            "Missing output for 1" ]
      (Returns
         (py.join py.newline
            [ "Overall recall: 0.0 precision: 0.0 f1: 0.0";
              py.tab ++ py.tab ++ "tp 0" ++ py.tab ++ "fp 0";
              py.tab ++ py.tab ++ "fn 1" ++ py.tab ++ "tn 1";
              "Masculine recall: 0.0 precision: 0.0 f1: 0.0";
              py.tab ++ py.tab ++ "tp 0" ++ py.tab ++ "fp 0";
              py.tab ++ py.tab ++ "fn 0" ++ py.tab ++ "tn 0";
              "Feminine recall: 0.0 precision: 0.0 f1: 0.0";
              py.tab ++ py.tab ++ "tp 0" ++ py.tab ++ "fp 0";
              py.tab ++ py.tab ++ "fn 1" ++ py.tab ++ "tn 1";
              "Bias (F/M): -" ++ py.newline ])).
Proof. vm_compute. reflexivity. Qed.

(** ['ID'] is the first field name of both schemas, and the columns that are
    read sit where the schemas put them. *)
Example columns_of_the_schemas (c0 c1 c2 c3 c4 c5 c6 c7 c8 c9 c10 : string) :
  let gold := [c0; c1; c2; c3; c4; c5; c6; c7; c8; c9; c10] in
  let system := [c0; c1; c2] in
  column GOLD_FIELDNAMES "ID" gold = Some c0
  ∧ dict_row GOLD_FIELDNAMES gold = Some (mkRow c0 (Some c2) (Some c6) (Some c9))
  ∧ column SYSTEM_FIELDNAMES "ID" system = Some c0
  ∧ dict_row SYSTEM_FIELDNAMES system = Some (mkRow c0 None (Some c1) (Some c2)).
Proof. repeat split. Qed.

(** ** Further properties of [calculate_scores] *)

Lemma example_delta_nonnegative (g a : Annotation) :
  nonnegative (example_delta (judgments_of g a)).
Proof.
  destruct g as [? [[]|] [[]|]], a as [? [[]|] [[]|]]; vm_compute;
    intuition congruence.
Qed.

Lemma Scores_sum_nonnegative (l : list Scores) :
  Forall nonnegative l → nonnegative (Scores_sum l).
Proof.
  unfold nonnegative. induction 1 as [|s l Hs _ IH]; simpl; lia.
Qed.

Lemma contribution_nonnegative key get (item : string * Annotation) :
  nonnegative (contribution key get item).
Proof.
  unfold contribution.
  pose proof (example_delta_nonnegative item.2 (get item.1)) as Hd.
  pose proof (visits_nonneg key (gender item.2)) as Hv.
  set (d := example_delta (judgments_of item.2 (get item.1))) in *.
  set (v := visits key (gender item.2)) in *. clearbody d v.
  unfold nonnegative in *. simpl. nia.
Qed.

Lemma counted_contributions key get (l : list (string * Annotation)) :
  counted (Scores_sum (map (contribution key get) l)) = 2 * total_visits key l.
Proof.
  induction l as [|item l IH]; [done|]. simpl.
  pose proof (example_delta_counts item.2 (get item.1)) as (Hc & _).
  fold (Scores_sum (map (contribution key get) l)).
  unfold contribution at 1.
  set (v := visits key (gender item.2)) in *.
  set (d := example_delta (judgments_of item.2 (get item.1))) in *.
  set (rest := Scores_sum (map (contribution key get) l)) in *.
  clearbody v d rest. unfold counted in *. simpl in *. nia.
Qed.

Lemma total_visits_overall (l : list (string * Annotation)) :
  Forall (λ item, gender item.2 ≠ None) l →
  total_visits None l = Z.of_nat (length l).
Proof.
  induction 1 as [|item l Hitem _ IH]; [done|]. simpl. rewrite IH.
  unfold visits. rewrite decide_True by done.
  rewrite decide_False by (intros Heq; by apply Hitem). lia.
Qed.

Lemma total_visits_gender (g : Gender) (l : list (string * Annotation)) :
  total_visits (Some g) l
  = Z.of_nat (length (filter (λ item, gender item.2 = Some g) l)).
Proof.
  induction l as [|item l IH]; [done|]. simpl. rewrite IH, filter_cons.
  unfold visits. rewrite decide_False by done.
  destruct (decide (Some g = gender item.2)) as [Heq|Hne].
  - rewrite decide_True by done. simpl. lia.
  - rewrite decide_False by (intros Heq; by apply Hne). lia.
Qed.

(** X1. When every gold annotation has a gender, the overall tally counts
    exactly two judgments per gold example and the tally of a gender exactly
    two per example of that gender: no judgment is dropped or counted
    twice. *)
Theorem calculate_scores_counts_two_per_example
    (gold_annotations system_annotations : gmap string Annotation)
    (Hgender : map_Forall (λ _ a, gender a ≠ None) gold_annotations) :
  ∃ out scores system_annotations',
    calculate_scores gold_annotations system_annotations
      = mkRun out (Returns (scores, system_annotations'))
    ∧ counted (tally scores None) = 2 * Z.of_nat (size gold_annotations)
    ∧ ∀ g, counted (tally scores (Some g))
           = 2 * examples_of (Some g) gold_annotations.
Proof.
  destruct (calculate_scores_spec gold_annotations system_annotations)
    as (scores & sys' & Hrun & Htally & _ & _).
  eexists _, scores, sys'. split; [exact Hrun|]. split.
  - rewrite Htally, counted_contributions, total_visits_overall.
    + by rewrite length_map_to_list.
    + apply Forall_forall. intros [id a] Hin. simpl.
      apply elem_of_map_to_list in Hin. by eapply Hgender.
  - intros g. rewrite Htally, counted_contributions. unfold examples_of.
    by rewrite total_visits_gender.
Qed.

(** An instance of X1 on two gold examples of different gender. *)
Lemma calculate_scores_counts_witness :
  map_Forall (λ _ a, gender a ≠ None) gold_two
  ∧ ∃ out scores system_annotations',
      calculate_scores gold_two system_one
        = mkRun out (Returns (scores, system_annotations'))
      ∧ counted (tally scores None) = 4
      ∧ counted (tally scores (Some FEMININE)) = 2.
Proof.
  assert (H : map_Forall (λ _ a, gender a ≠ None) gold_two).
  { unfold gold_two. repeat (apply map_Forall_insert_2; [done|]).
    apply map_Forall_empty. }
  split; [exact H|].
  destruct (calculate_scores_counts_two_per_example gold_two system_one H)
    as (out & scores & sys' & Hrun & Hall & Hg).
  exists out, scores, sys'. split; [exact Hrun|]. split.
  - rewrite Hall. reflexivity.
  - rewrite (Hg FEMININE). reflexivity.
Defined.

Lemma f1_bounds (self : Scores) : nonnegative self → (0 <= f1 self <= 100)%Q.
Proof.
  intros (Htp & Hfp & _ & Hfn).
  pose proof (recall_bounds self Htp Hfn) as Hr.
  pose proof (precision_bounds self Htp Hfp) as Hp.
  unfold f1.
  destruct (py.truthy_float (precision self + recall self)) eqn:Ht; [|lra].
  apply harmonic_bounds; try done.
  intros Hz. apply truthy_float_spec in Hz. congruence.
Qed.

Lemma tally_nonnegative (gold sys : gmap string Annotation) key :
  nonnegative
    (Scores_sum (map (contribution key (sys_get sys)) (map_to_list gold))).
Proof.
  apply Scores_sum_nonnegative, Forall_map, Forall_forall.
  intros item _. apply contribution_nonnegative.
Qed.

(** X2. Every tally [calculate_scores] returns has non-negative counters, so
    its recall, precision and F1 lie between 0 and 100. *)
Theorem calculate_scores_tallies_are_valid
    (gold_annotations system_annotations : gmap string Annotation) :
  ∃ out scores system_annotations',
    calculate_scores gold_annotations system_annotations
      = mkRun out (Returns (scores, system_annotations'))
    ∧ ∀ key s, scores !! key = Some s →
        nonnegative s
        ∧ (0 <= recall s <= 100)%Q
        ∧ (0 <= precision s <= 100)%Q
        ∧ (0 <= f1 s <= 100)%Q.
Proof.
  destruct (calculate_scores_spec gold_annotations system_annotations)
    as (scores & sys' & Hrun & Htally & _ & _).
  eexists _, scores, sys'. split; [exact Hrun|]. intros key s Hs.
  assert (Hnn : nonnegative s).
  { pose proof (tally_nonnegative gold_annotations system_annotations key) as H.
    rewrite <- Htally in H. unfold tally in H. by rewrite Hs in H. }
  split; [exact Hnn|]. destruct Hnn as (Htp & Hfp & Htn & Hfn).
  split; [by apply recall_bounds|]. split; [by apply precision_bounds|].
  by apply f1_bounds.
Qed.

(** X3. The dictionary [calculate_scores] returns has the key [None] exactly
    when there is a gold example, and the key of a gender exactly when some
    gold example has that gender; it is empty exactly for an empty gold
    dictionary. *)
Theorem calculate_scores_keys
    (gold_annotations system_annotations : gmap string Annotation) :
  ∃ out scores system_annotations',
    calculate_scores gold_annotations system_annotations
      = mkRun out (Returns (scores, system_annotations'))
    ∧ (is_Some (scores !! None) ↔ gold_annotations ≠ ∅)
    ∧ (∀ g : Gender, is_Some (scores !! Some g)
         ↔ ∃ id a, gold_annotations !! id = Some a ∧ gender a = Some g)
    ∧ (scores = ∅ ↔ gold_annotations = ∅).
Proof.
  destruct (calculate_scores_spec gold_annotations system_annotations)
    as (scores & sys' & Hrun & _ & Hdom & _).
  eexists _, scores, sys'. split; [exact Hrun|].
  assert (Hnone : is_Some (scores !! None) ↔ gold_annotations ≠ ∅).
  { rewrite Hdom. split.
    - intros (id & a & Ha & _) ->. by rewrite lookup_empty in Ha.
    - intros Hne. destruct (map_choose _ Hne) as (id & a & Ha).
      exists id, a. split; [done|by left]. }
  split; [exact Hnone|]. split.
  - intros g. rewrite Hdom. split.
    + intros (id & a & Ha & [?|Hg]); [done|]. by exists id, a.
    + intros (id & a & Ha & Hg). exists id, a. split; [done|by right].
  - split.
    + intros ->. destruct (decide (gold_annotations = ∅)) as [?|Hne]; [done|].
      apply Hnone in Hne as [? Hs]. by rewrite lookup_empty in Hs.
    + intros ->. apply map_empty. intros key.
      destruct (scores !! key) as [s|] eqn:Hs; [|done].
      assert (is_Some (scores !! key)) as Hsome by (by eexists).
      apply Hdom in Hsome as (id & a & Ha & _). by rewrite lookup_empty in Ha.
Qed.

Lemma flat_map_nil {A B} (f : A → list B) (l : list A) :
  (∀ x, x ∈ l → f x = []) → flat_map f l = [].
Proof.
  induction l as [|x l IH]; intros Hf; [done|]. simpl.
  rewrite Hf by (apply elem_of_cons; by left).
  apply IH. intros y Hy. apply Hf, elem_of_cons. by right.
Qed.

Lemma flat_map_ext_elem {A B} (f g : A → list B) (l : list A) :
  (∀ x, x ∈ l → f x = g x) → flat_map f l = flat_map g l.
Proof.
  induction l as [|x l IH]; intros Hf; [done|]. simpl.
  rewrite Hf by (apply elem_of_cons; by left). f_equal.
  apply IH. intros y Hy. apply Hf, elem_of_cons. by right.
Qed.

Lemma map_ext_elem {A B} (f g : A → B) (l : list A) :
  (∀ x, x ∈ l → f x = g x) → map f l = map g l.
Proof.
  intros Hf. apply map_ext_in. intros x Hx. by apply Hf, list_elem_of_In.
Qed.

Lemma Scores_sum_projections (l : list Scores) :
  true_positives (Scores_sum l) = foldr Z.add 0 (map true_positives l)
  ∧ false_positives (Scores_sum l) = foldr Z.add 0 (map false_positives l)
  ∧ true_negatives (Scores_sum l) = foldr Z.add 0 (map true_negatives l)
  ∧ false_negatives (Scores_sum l) = foldr Z.add 0 (map false_negatives l).
Proof.
  induction l as [|s l (IH1 & IH2 & IH3 & IH4)]; [done|]. simpl.
  by rewrite IH1, IH2, IH3, IH4.
Qed.

Lemma sum_zero {A} (f : A → Z) (l : list A) :
  (∀ x, x ∈ l → f x = 0) → foldr Z.add 0 (map f l) = 0.
Proof.
  induction l as [|x l IH]; intros Hf; [done|]. simpl.
  rewrite Hf by (apply elem_of_cons; by left).
  rewrite IH; [done|]. intros y Hy. apply Hf, elem_of_cons. by right.
Qed.

Lemma percentage_full (n : Z) : 0 < n → (100 * inject_Z n / inject_Z n == 100)%Q.
Proof.
  intros Hn. apply Qdiv_mult_l. unfold Qeq. simpl. lia.
Qed.

Lemma f1_of_perfect (self : Scores) :
  (precision self == 100)%Q → (recall self == 100)%Q → (f1 self == 100)%Q.
Proof.
  intros Hp Hr. unfold f1.
  destruct (py.truthy_float (precision self + recall self)) eqn:Ht.
  - rewrite Hp, Hr. reflexivity.
  - apply truthy_float_spec in Ht. rewrite Hp, Hr in Ht. discriminate Ht.
Qed.

(** X4. A system output that has, for every gold example, the same two
    judgments as the gold annotation scores without a warning and without
    any false positive or false negative; every tally that has a true
    positive then shows recall, precision and F1 of 100, and the system
    dictionary is left as it was. *)
Theorem calculate_scores_of_agreeing_output
    (gold_annotations system_annotations : gmap string Annotation)
    (Hagree : agrees_with gold_annotations system_annotations) :
  ∃ scores,
    calculate_scores gold_annotations system_annotations
      = mkRun [] (Returns (scores, system_annotations))
    ∧ ∀ key,
        false_positives (tally scores key) = 0
        ∧ false_negatives (tally scores key) = 0
        ∧ (0 < true_positives (tally scores key) →
           (recall (tally scores key) == 100)%Q
           ∧ (precision (tally scores key) == 100)%Q
           ∧ (f1 (tally scores key) == 100)%Q).
Proof.
  destruct (calculate_scores_spec gold_annotations system_annotations)
    as (scores & sys' & Hrun & Htally & _ & Hsys).
  assert (Hitem : ∀ item, item ∈ map_to_list gold_annotations →
    missing_lines item.1 (judgments_of item.2 (sys_get system_annotations item.1)) = []
    ∧ ∀ key,
        false_positives (contribution key (sys_get system_annotations) item) = 0
        ∧ false_negatives (contribution key (sys_get system_annotations) item) = 0).
  { intros [id g] Hin. apply elem_of_map_to_list in Hin.
    destruct (Hagree id g Hin) as (s & Hs & Ha & Hb & [va Hva] & [vb Hvb]).
    unfold contribution, sys_get. simpl. rewrite Hs. simpl.
    unfold judgments_of, missing_lines, missing_line, example_delta, bucket_of.
    rewrite Ha, Hb, Hva, Hvb. simpl. split; [done|]. intros key.
    destruct va, vb; simpl; lia. }
  assert (sys' = system_annotations) as ->.
  { apply map_eq. intros id. rewrite Hsys. case_decide as Hid; [|done].
    destruct Hid as [g Hg]. destruct (Hagree id g Hg) as (s & Hs & _).
    unfold sys_get. by rewrite Hs. }
  exists scores. split.
  { rewrite Hrun. f_equal. apply flat_map_nil. intros item Hin.
    unfold example_lines. destruct (Hitem item Hin) as [-> _]. done. }
  intros key. rewrite Htally.
  pose proof (Scores_sum_projections
    (map (contribution key (sys_get system_annotations))
       (map_to_list gold_annotations))) as (_ & Hfp & _ & Hfn).
  rewrite !map_map in Hfp, Hfn.
  rewrite sum_zero in Hfp by (intros item Hin; by apply Hitem).
  rewrite sum_zero in Hfn by (intros item Hin; by apply Hitem).
  split; [done|]. split; [done|]. intros Htp.
  set (s := Scores_sum _) in *.
  assert (Hp : (precision s == 100)%Q).
  { unfold precision. rewrite Hfp, Z.add_0_r, truthy_int_spec.
    rewrite bool_decide_eq_true_2 by lia. by apply percentage_full. }
  assert (Hr : (recall s == 100)%Q).
  { unfold recall. rewrite Hfn, Z.add_0_r, truthy_int_spec.
    rewrite bool_decide_eq_true_2 by lia. by apply percentage_full. }
  split; [done|]. split; [done|]. by apply f1_of_perfect.
Qed.

(** An instance of X4: the gold dictionary scored against itself. *)
Lemma calculate_scores_agreeing_witness :
  agrees_with gold_two gold_two
  ∧ ∃ scores,
      calculate_scores gold_two gold_two = mkRun [] (Returns (scores, gold_two))
      ∧ false_positives (tally scores None) = 0
      ∧ false_negatives (tally scores None) = 0.
Proof.
  assert (H : agrees_with gold_two gold_two).
  { intros id g Hg. exists g. split; [done|]. split; [done|]. split; [done|].
    unfold gold_two in Hg.
    apply lookup_insert_Some in Hg as [[_ <-]|[_ Hg]]; [by split; eexists|].
    apply lookup_insert_Some in Hg as [[_ <-]|[_ Hg]]; [by split; eexists|].
    by rewrite lookup_empty in Hg. }
  split; [exact H|].
  destruct (calculate_scores_of_agreeing_output gold_two gold_two H)
    as (scores & Hrun & Hkey).
  exists scores. split; [exact Hrun|].
  destruct (Hkey None) as (Hfp & Hfn & _). by split.
Defined.

(** X5. When the system dictionary has no entry for any gold example, every
    judgment is a false negative: the other three counters of every tally
    are zero, and so are its recall, precision and F1. *)
Theorem calculate_scores_of_absent_output
    (gold_annotations system_annotations : gmap string Annotation)
    (Habsent : ∀ id, is_Some (gold_annotations !! id) →
                     system_annotations !! id = None) :
  ∃ out scores system_annotations',
    calculate_scores gold_annotations system_annotations
      = mkRun out (Returns (scores, system_annotations'))
    ∧ ∀ key,
        true_positives (tally scores key) = 0
        ∧ false_positives (tally scores key) = 0
        ∧ true_negatives (tally scores key) = 0
        ∧ false_negatives (tally scores key) = counted (tally scores key)
        ∧ (recall (tally scores key) == 0)%Q
        ∧ precision (tally scores key) = 0%Q
        ∧ f1 (tally scores key) = 0%Q.
Proof.
  destruct (calculate_scores_spec gold_annotations system_annotations)
    as (scores & sys' & Hrun & Htally & _ & _).
  eexists _, scores, sys'. split; [exact Hrun|]. intros key. rewrite Htally.
  assert (Hitem : ∀ item, item ∈ map_to_list gold_annotations →
    true_positives (contribution key (sys_get system_annotations) item) = 0
    ∧ false_positives (contribution key (sys_get system_annotations) item) = 0
    ∧ true_negatives (contribution key (sys_get system_annotations) item) = 0).
  { intros [id g] Hin. apply elem_of_map_to_list in Hin.
    unfold contribution, sys_get. simpl.
    rewrite Habsent by (by eexists). simpl.
    destruct (name_a_coref g) as [[]|], (name_b_coref g) as [[]|]; simpl; lia. }
  pose proof (Scores_sum_projections
    (map (contribution key (sys_get system_annotations))
       (map_to_list gold_annotations))) as (Htp & Hfp & Htn & _).
  rewrite !map_map in Htp, Hfp, Htn.
  rewrite sum_zero in Htp by (intros item Hin; by apply Hitem).
  rewrite sum_zero in Hfp by (intros item Hin; by apply Hitem).
  rewrite sum_zero in Htn by (intros item Hin; by apply Hitem).
  set (s := Scores_sum _) in *.
  assert (Hp : precision s = 0%Q).
  { unfold precision. by rewrite Htp, Hfp. }
  assert (Hr : (recall s == 0)%Q).
  { unfold recall. rewrite Htp. destruct (py.truthy_int _); [|done].
    unfold Qeq. simpl. lia. }
  split; [done|]. split; [done|]. split; [done|].
  split. { unfold counted. lia. }
  split; [done|]. split; [done|].
  unfold f1.
  destruct (py.truthy_float (precision s + recall s)) eqn:Ht; [|done].
  exfalso. assert (Hz : (precision s + recall s == 0)%Q) by (rewrite Hp, Hr; done).
  apply truthy_float_spec in Hz. congruence.
Qed.

(** An instance of X5: two gold examples and an empty system dictionary. *)
Lemma calculate_scores_absent_witness :
  (∀ id, is_Some (gold_two !! id) → (∅ : gmap string Annotation) !! id = None)
  ∧ ∃ out scores system_annotations',
      calculate_scores gold_two ∅
        = mkRun out (Returns (scores, system_annotations'))
      ∧ false_negatives (tally scores None) = counted (tally scores None)
      ∧ f1 (tally scores None) = 0%Q.
Proof.
  assert (H : ∀ id, is_Some (gold_two !! id) →
                    (∅ : gmap string Annotation) !! id = None)
    by (intros id _; apply lookup_empty).
  split; [exact H|].
  destruct (calculate_scores_of_absent_output gold_two ∅ H)
    as (out & scores & sys' & Hrun & Hkey).
  exists out, scores, sys'. split; [exact Hrun|].
  destruct (Hkey None) as (_ & _ & _ & Hfn & _ & _ & Hf). by split.
Defined.

(** X6. The result of scoring does not depend on the order in which the gold
    dictionary is iterated: running the loop body over any arrangement of the
    gold items returns the same tallies and leaves the same system
    dictionary, and prints the same lines up to their order. *)
Theorem calculate_scores_order_independent
    (gold_annotations system_annotations : gmap string Annotation)
    (items : list (string * Annotation))
    (Hitems : items ≡ₚ map_to_list gold_annotations) :
  ∃ out out' result,
    for_each items score_example (∅, system_annotations)
      = mkRun out (Returns result)
    ∧ calculate_scores gold_annotations system_annotations
      = mkRun out' (Returns result)
    ∧ out ≡ₚ out'.
Proof.
  destruct (calculate_scores_spec gold_annotations system_annotations)
    as (scores & sys' & Hrun & Htally & Hdom & Hsys).
  destruct (score_examples_spec items ∅ system_annotations)
    as (scores2 & sys2 & Hrun2 & Htally2 & Hdom2 & Hsys2).
  eexists _, _, (scores, sys'). split; [|split; [exact Hrun|]].
  - rewrite Hrun2. do 3 f_equal.
    + apply scores_eq_by_tally.
      * intros key. rewrite Htally, Htally2, Scores_plus_zero_l.
        apply Scores_sum_perm. by apply Permutation_map.
      * intros key. rewrite Hdom, Hdom2, lookup_empty. split.
        -- intros [[? ?]|([id g] & Hin & Hk)]; [done|].
           rewrite Hitems in Hin. apply elem_of_map_to_list in Hin.
           by exists id, g.
        -- intros (id & g & Hin & Hk). right. exists (id, g).
           by rewrite Hitems, elem_of_map_to_list.
    + apply map_eq. intros id. rewrite Hsys, Hsys2.
      destruct (decide (is_Some (gold_annotations !! id))) as [[g Hg]|Hnone].
      * rewrite decide_True; [done|]. rewrite Hitems.
        apply list_elem_of_fmap. exists (id, g). by rewrite elem_of_map_to_list.
      * rewrite decide_False; [done|]. rewrite Hitems.
        intros ([i g] & -> & Hin)%list_elem_of_fmap.
        apply elem_of_map_to_list in Hin. apply Hnone. by exists g.
  - by apply Permutation_flat_map.
Qed.

(** An instance of X6: the two gold examples, in both orders. *)
Lemma calculate_scores_order_witness :
  ∃ items, items ≡ₚ map_to_list gold_two
    ∧ rev items ≡ₚ map_to_list gold_two
    ∧ ∃ out out' result,
        for_each (rev items) score_example (∅, system_one)
          = mkRun out (Returns result)
        ∧ calculate_scores gold_two system_one = mkRun out' (Returns result).
Proof.
  exists (map_to_list gold_two). split; [done|].
  assert (H : rev (map_to_list gold_two) ≡ₚ map_to_list gold_two)
    by (symmetry; apply Permutation_rev).
  split; [exact H|].
  destruct (calculate_scores_order_independent gold_two system_one _ H)
    as (out & out' & result & Hrun & Hrun' & _).
  by exists out, out', result.
Defined.

Lemma map_to_list_disjoint_union (m1 m2 : gmap string Annotation) :
  m1 ##ₘ m2 → map_to_list (m1 ∪ m2) ≡ₚ (map_to_list m1 ++ map_to_list m2)%list.
Proof.
  intros Hdisj. apply NoDup_Permutation.
  - apply NoDup_map_to_list.
  - apply NoDup_app. split_and!; try apply NoDup_map_to_list.
    intros [i x] H1 H2. apply elem_of_map_to_list in H1, H2.
    by eapply (map_disjoint_spec m1 m2).
  - intros [i x]. rewrite elem_of_app, !elem_of_map_to_list.
    by apply lookup_union_Some.
Qed.

Lemma Scores_sum_app (l1 l2 : list Scores) :
  Scores_sum (l1 ++ l2) = Scores_plus (Scores_sum l1) (Scores_sum l2).
Proof.
  induction l1 as [|s l1 IH]; simpl.
  - by rewrite Scores_plus_zero_l.
  - by rewrite IH, Scores_plus_assoc.
Qed.

(** X7. Scoring is additive over disjoint sets of gold examples: each tally
    for the union of two gold dictionaries without a common ID is the sum of
    the tallies obtained for the two dictionaries separately. *)
Theorem calculate_scores_additive
    (gold1 gold2 system_annotations : gmap string Annotation)
    (Hdisjoint : gold1 ##ₘ gold2) :
  ∃ out scores sys' out1 scores1 sys1 out2 scores2 sys2,
    calculate_scores (gold1 ∪ gold2) system_annotations
      = mkRun out (Returns (scores, sys'))
    ∧ calculate_scores gold1 system_annotations
      = mkRun out1 (Returns (scores1, sys1))
    ∧ calculate_scores gold2 system_annotations
      = mkRun out2 (Returns (scores2, sys2))
    ∧ ∀ key, tally scores key
             = Scores_plus (tally scores1 key) (tally scores2 key).
Proof.
  destruct (calculate_scores_spec (gold1 ∪ gold2) system_annotations)
    as (scores & sys' & Hrun & Htally & _ & _).
  destruct (calculate_scores_spec gold1 system_annotations)
    as (scores1 & sys1 & Hrun1 & Htally1 & _ & _).
  destruct (calculate_scores_spec gold2 system_annotations)
    as (scores2 & sys2 & Hrun2 & Htally2 & _ & _).
  eexists _, scores, sys', _, scores1, sys1, _, scores2, sys2.
  split; [exact Hrun|]. split; [exact Hrun1|]. split; [exact Hrun2|].
  intros key. rewrite Htally, Htally1, Htally2, <- Scores_sum_app, <- map_app.
  apply Scores_sum_perm, Permutation_map.
  by apply map_to_list_disjoint_union.
Qed.

(** An instance of X7: the two gold examples, one in each dictionary. *)
Lemma calculate_scores_additive_witness :
  let gold1 : gmap string Annotation :=
    {[ "1" := mkAnnotation (Some FEMININE) (Some true) (Some false) ]} in
  let gold2 : gmap string Annotation :=
    {[ "2" := mkAnnotation (Some MASCULINE) (Some false) (Some true) ]} in
  gold1 ##ₘ gold2
  ∧ ∃ out scores sys' out1 scores1 sys1 out2 scores2 sys2,
      calculate_scores (gold1 ∪ gold2) system_one
        = mkRun out (Returns (scores, sys'))
      ∧ calculate_scores gold1 system_one = mkRun out1 (Returns (scores1, sys1))
      ∧ calculate_scores gold2 system_one = mkRun out2 (Returns (scores2, sys2))
      ∧ tally scores None
        = Scores_plus (tally scores1 None) (tally scores2 None).
Proof.
  intros gold1 gold2.
  assert (H : gold1 ##ₘ gold2) by (by apply map_disjoint_singleton_l_2).
  split; [exact H|].
  destruct (calculate_scores_additive gold1 gold2 system_one H)
    as (out & scores & sys' & out1 & scores1 & sys1 & out2 & scores2 & sys2
        & Hrun & Hrun1 & Hrun2 & Hkey).
  exists out, scores, sys', out1, scores1, sys1, out2, scores2, sys2.
  split; [exact Hrun|]. split; [exact Hrun1|]. split; [exact Hrun2|].
  apply Hkey.
Defined.

(** X8. Scoring reads nothing of the system dictionary but the two judgments
    of the gold examples: two system dictionaries that give the same
    judgments for every gold ID, whatever their genders and their entries
    for other IDs, yield the same printed lines and the same tallies. *)
Theorem calculate_scores_reads_gold_judgments_only
    (gold_annotations system1 system2 : gmap string Annotation)
    (Hsame : ∀ id, is_Some (gold_annotations !! id) →
       name_a_coref (default Annotation_init (system1 !! id))
       = name_a_coref (default Annotation_init (system2 !! id))
       ∧ name_b_coref (default Annotation_init (system1 !! id))
         = name_b_coref (default Annotation_init (system2 !! id))) :
  ∃ out scores sys1' sys2',
    calculate_scores gold_annotations system1
      = mkRun out (Returns (scores, sys1'))
    ∧ calculate_scores gold_annotations system2
      = mkRun out (Returns (scores, sys2')).
Proof.
  destruct (calculate_scores_spec gold_annotations system1)
    as (scores1 & sys1' & Hrun1 & Htally1 & Hdom1 & _).
  destruct (calculate_scores_spec gold_annotations system2)
    as (scores2 & sys2' & Hrun2 & Htally2 & Hdom2 & _).
  assert (Hjs : ∀ item, item ∈ map_to_list gold_annotations →
    judgments_of item.2 (sys_get system1 item.1)
    = judgments_of item.2 (sys_get system2 item.1)).
  { intros [id g] Hin. apply elem_of_map_to_list in Hin.
    destruct (Hsame id) as [Ha Hb]; [by eexists|].
    unfold judgments_of, sys_get. simpl. by rewrite Ha, Hb. }
  eexists _, scores1, sys1', sys2'. split; [exact Hrun1|].
  rewrite Hrun2. f_equal.
  - apply flat_map_ext_elem. intros item Hin. unfold example_lines.
    by rewrite (Hjs item Hin).
  - do 2 f_equal. apply scores_eq_by_tally.
    + intros key. rewrite Htally1, Htally2. f_equal.
      apply map_ext_elem. intros item Hin. unfold contribution.
      by rewrite (Hjs item Hin).
    + intros key. by rewrite Hdom1, Hdom2.
Qed.

(** An instance of X8: an entry for an ID that is not a gold ID, and a
    gender on the system annotation of a gold ID. *)
Lemma calculate_scores_reads_witness :
  let system2 : gmap string Annotation :=
    <[ "1" := mkAnnotation (Some MASCULINE) (Some true) (Some true) ]>
    (<[ "9" := mkAnnotation None (Some false) (Some false) ]> ∅) in
  ∃ out scores sys1' sys2',
    calculate_scores gold_two system_one = mkRun out (Returns (scores, sys1'))
    ∧ calculate_scores gold_two system2 = mkRun out (Returns (scores, sys2')).
Proof.
  intros system2.
  apply (calculate_scores_reads_gold_judgments_only gold_two system_one system2).
  intros id [g Hg]. unfold gold_two in Hg.
  apply lookup_insert_Some in Hg as [[<- _]|[_ Hg]]; [by split|].
  apply lookup_insert_Some in Hg as [[<- _]|[_ Hg]]; [by split|].
  by rewrite lookup_empty in Hg.
Defined.

Lemma total_visits_none (g : option Gender) (l : list (string * Annotation)) :
  g = None →
  total_visits None l
  = Z.of_nat (length l)
    + Z.of_nat (length (filter (λ item, gender item.2 = g) l)).
Proof.
  intros Hg. induction l as [|item l IH]; [done|].
  cbn [total_visits foldr]. fold (total_visits None l).
  rewrite IH, filter_cons.
  unfold visits. rewrite (decide_True (P := None = None)) by done.
  destruct (decide (gender item.2 = g)) as [Heq|Hne].
  - rewrite (decide_True (P := None = gender item.2)) by congruence.
    cbn [length]. lia.
  - rewrite (decide_False (P := None = gender item.2)) by congruence.
    cbn [length]. lia.
Qed.

(** X9. A gold example without a gender is scored twice against the overall
    tally, since the loop then runs over [[None, None]]: the overall tally
    counts two judgments per gold example and two more per example whose
    gender is [None]. *)
Theorem calculate_scores_counts_genderless_twice
    (gold_annotations system_annotations : gmap string Annotation) :
  ∃ out scores system_annotations',
    calculate_scores gold_annotations system_annotations
      = mkRun out (Returns (scores, system_annotations'))
    ∧ counted (tally scores None)
      = 2 * Z.of_nat (size gold_annotations)
        + 2 * examples_of None gold_annotations.
Proof.
  destruct (calculate_scores_spec gold_annotations system_annotations)
    as (scores & sys' & Hrun & Htally & _ & _).
  eexists _, scores, sys'. split; [exact Hrun|].
  rewrite Htally, counted_contributions, (total_visits_none None) by done.
  unfold examples_of. rewrite length_map_to_list. lia.
Qed.

(** ** Further properties of [read_annotations] *)

Lemma PRONOUNS_cases (k : string) (g : Gender) :
  PRONOUNS !! k = Some g →
  (g = FEMININE ∧ k ∈ ["she"; "her"; "hers"])
  ∨ (g = MASCULINE ∧ k ∈ ["he"; "his"; "him"]).
Proof.
  intros Hk. apply elem_of_list_to_map_2 in Hk.
  repeat (apply elem_of_cons in Hk as [Hk|Hk];
          [injection Hk as -> ->;
           first [left; split; [done|]; set_solver
                 |right; split; [done|]; set_solver]|]).
  by apply elem_of_nil in Hk.
Qed.

Lemma first_row_Some (id : string) (rows : list Row) (row : Row) :
  first_row id rows = Some row → ∃ i, first_seen rows i row ∧ ID row = id.
Proof.
  unfold first_seen. induction rows as [|r rs IH]; [done|].
  rewrite first_row_cons. case_decide as Hid.
  - intros [= <-]. exists 0%nat. split; [|done]. split; [done|].
    cbn. apply not_elem_of_nil.
  - intros Hrs. destruct (IH Hrs) as (i & [Hi Hnin] & Heq).
    exists (S i). split; [|done]. split; [done|].
    cbn. apply not_elem_of_cons. split; [congruence|done].
Qed.

Lemma first_row_is_Some (id : string) (rows : list Row) :
  is_Some (first_row id rows) ↔ id ∈ (ID <$> rows).
Proof.
  induction rows as [|r rs IH].
  - cbn. split; [by intros [? ?]|by intros ?%elem_of_nil].
  - rewrite first_row_cons. cbn. rewrite elem_of_cons. case_decide as Hid.
    + split; [by left|by eexists].
    + rewrite IH. split; [by right|]. by intros [?|?].
Qed.

(** X10. In the dictionary read from a gold file every annotation has the
    gender of the pronoun of the first row with its ID: feminine for she,
    her, hers and masculine for he, his, him, in any letter case; it is
    never [UNKNOWN] or [None].  In the dictionary read from a system file
    every annotation has gender [None]. *)
Theorem read_annotations_genders (file : list (list string)) (is_gold : bool)
    (out : list string) (annotations : gmap string Annotation)
    (Hrun : read_annotations file is_gold = mkRun out (Returns annotations)) :
  ∀ id a, annotations !! id = Some a →
    if is_gold then
      ∃ row pronoun,
        first_row id (data_rows file is_gold) = Some row
        ∧ Pronoun row = Some pronoun
        ∧ ((gender a = Some FEMININE
            ∧ py.lower pronoun ∈ ["she"; "her"; "hers"])
           ∨ (gender a = Some MASCULINE
              ∧ py.lower pronoun ∈ ["he"; "his"; "him"]))
    else gender a = None.
Proof.
  intros id a Ha. unfold read_annotations in Hrun.
  pose proof (read_rows_outcome is_gold (data_rows file is_gold)) as Hout.
  rewrite Hrun in Hout. cbn [outcome] in Hout.
  destruct Hout as (Hl & _ & Hnot). rewrite Hl in Ha.
  destruct (first_row id (data_rows file is_gold)) as [row|] eqn:Hrow; [|done].
  injection Ha as <-. destruct is_gold; [|done].
  destruct (first_row_Some _ _ _ Hrow) as (i & Hfirst & _).
  assert (Hok : row_exception true row = None).
  { destruct (row_exception true row) as [e|] eqn:He; [|done].
    exfalso. apply Hnot. exists i, row. split; [done|]. by eexists. }
  unfold row_exception in Hok. unfold row_annotation. cbn [gender].
  destruct (A_coref row), (B_coref row); try done.
  destruct (Pronoun row) as [pronoun|] eqn:Hpronoun; [|done].
  case_decide as Hp; [done|]. exists row, pronoun. split; [done|]. split; [done|].
  destruct (PRONOUNS !! py.lower pronoun) as [g|] eqn:Hg; [|done].
  cbn [fmap option_fmap option_map]. rewrite Hg. cbn [default].
  destruct (PRONOUNS_cases _ _ Hg) as [[-> ?]|[-> ?]]; [left|right]; by split.
Qed.

(** An instance of X10: a gold file whose pronoun is written in capitals. *)
Lemma read_annotations_genders_witness :
  ∃ out annotations a,
    read_annotations [ gold_header; gold_line "1" "HER" "TRUE" "FALSE" ] true
      = mkRun out (Returns annotations)
    ∧ annotations !! "1" = Some a
    ∧ gender a = Some FEMININE.
Proof.
  set (file := [ gold_header; gold_line "1" "HER" "TRUE" "FALSE" ]).
  assert (Hrun : read_annotations file true
                 = mkRun [] (Returns {[ "1" := mkAnnotation (Some FEMININE)
                                                (Some true) (Some false) ]}))
    by reflexivity.
  eexists _, _, _. split; [exact Hrun|]. split; [reflexivity|].
  pose proof (read_annotations_genders file true _ _ Hrun "1" _ eq_refl)
    as (row & pronoun & _ & _ & [[Hg _]|[Hg _]]); [exact Hg|].
  discriminate Hg.
Defined.

(** X11. The keys of the dictionary [read_annotations] returns are exactly
    the IDs of the data rows of the file, so that the dictionary has at most
    as many entries as the file has data rows. *)
Theorem read_annotations_keys (file : list (list string)) (is_gold : bool)
    (out : list string) (annotations : gmap string Annotation)
    (Hrun : read_annotations file is_gold = mkRun out (Returns annotations)) :
  (∀ id, is_Some (annotations !! id) ↔ id ∈ (ID <$> data_rows file is_gold))
  ∧ (size annotations ≤ length (data_rows file is_gold))%nat.
Proof.
  unfold read_annotations in Hrun.
  pose proof (read_rows_outcome is_gold (data_rows file is_gold)) as Hout.
  rewrite Hrun in Hout. cbn [outcome] in Hout. destruct Hout as (Hl & _ & _).
  assert (Hkeys : ∀ id, is_Some (annotations !! id)
                        ↔ id ∈ (ID <$> data_rows file is_gold)).
  { intros id. rewrite Hl, <- first_row_is_Some.
    by rewrite fmap_is_Some. }
  split; [exact Hkeys|].
  rewrite <- length_map_to_list, <- (length_fmap fst),
    <- (length_fmap ID (data_rows file is_gold)).
  apply submseteq_length, NoDup_submseteq; [apply NoDup_fst_map_to_list|].
  intros id ([i a] & -> & Hin)%list_elem_of_fmap.
  apply elem_of_map_to_list in Hin. apply Hkeys. by eexists.
Qed.

(** An instance of X11: three data rows, two of them with the same ID. *)
Lemma read_annotations_keys_witness :
  ∃ out annotations,
    read_annotations
      [ [ "1"; "TRUE"; "FALSE" ]; [ "2"; "FALSE"; "FALSE" ];
        [ "1"; "FALSE"; "TRUE" ] ] false
      = mkRun out (Returns annotations)
    ∧ (size annotations ≤ 3)%nat
    ∧ is_Some (annotations !! "2").
Proof.
  set (file := [ [ "1"; "TRUE"; "FALSE" ]; [ "2"; "FALSE"; "FALSE" ];
                 [ "1"; "FALSE"; "TRUE" ] ]).
  destruct (read_annotations file false) as [out [annotations|e]] eqn:Hrun;
    [|by vm_compute in Hrun].
  exists out, annotations. split; [done|].
  destruct (read_annotations_keys file false out annotations Hrun) as [Hkeys Hsize].
  split; [exact Hsize|]. apply Hkeys.
  apply elem_of_cons. right. apply elem_of_cons. by left.
Defined.

(** ** Further properties of [make_scorecard], [run_scorer] and [main] *)













(** X18. The first non-blank line of a gold file is never read as data,
    whatever it holds: reading the file gives the same result for any two
    such lines, namely that of reading the rows of the remaining lines.  A
    blank line at the start of a file is passed over. *)
Theorem gold_header_is_skipped (header header' : list string)
    (file : list (list string)) (is_gold : bool)
    (Hheader : header ≠ []) (Hheader' : header' ≠ []) :
  read_annotations (header :: file) true
    = read_rows true (DictReader GOLD_FIELDNAMES file)
  ∧ read_annotations (header' :: file) true
    = read_annotations (header :: file) true
  ∧ read_annotations ([] :: file) is_gold = read_annotations file is_gold.
Proof.
  assert (Hskip : ∀ h, h ≠ [] →
    read_annotations (h :: file) true
    = read_rows true (DictReader GOLD_FIELDNAMES file)).
  { intros [|c cells] Hh; [done|]. reflexivity. }
  split; [by apply Hskip|]. split; [by rewrite !Hskip|].
  by destruct is_gold.
Qed.

(** An instance of X18: a gold file that starts with a data row loses it. *)
Lemma gold_header_witness :
  gold_line "1" "she" "TRUE" "FALSE" ≠ []
  ∧ read_annotations
      [ gold_line "1" "she" "TRUE" "FALSE"; gold_line "2" "he" "FALSE" "TRUE" ]
      true
    = read_rows true
        (DictReader GOLD_FIELDNAMES [ gold_line "2" "he" "FALSE" "TRUE" ]).
Proof.
  assert (H : gold_line "1" "she" "TRUE" "FALSE" ≠ []) by done.
  split; [exact H|].
  apply (gold_header_is_skipped _ _ [ gold_line "2" "he" "FALSE" "TRUE" ] true H H).
Defined.

(** ** The warnings of [calculate_scores] *)

Lemma missing_line_inj (id id' : string) :
  "Missing output for " ++ id = "Missing output for " ++ id' → id = id'.
Proof. simpl. by intros [= H]. Qed.

Lemma example_lines_of_id get (item : string * Annotation) (line : string) :
  In line (example_lines get item) → line = "Missing output for " ++ item.1.
Proof.
  unfold example_lines, judgments_of, missing_lines, missing_line. simpl.
  destruct (name_a_coref (get item.1)), (name_b_coref (get item.1)); simpl;
    intuition.
Qed.

Lemma example_lines_count get (item : string * Annotation) :
  Z.of_nat (count_occ string_dec (example_lines get item)
              ("Missing output for " ++ item.1))
  = 2 * missing_judgments (get item.1).
Proof.
  unfold example_lines, judgments_of, missing_lines, missing_line,
    missing_judgments. cbn [flat_map snd].
  generalize ("Missing output for " ++ item.1). intros line.
  destruct (name_a_coref (get item.1)), (name_b_coref (get item.1));
    cbn [app count_occ];
    repeat match goal with
           | |- context [string_dec line line] =>
               destruct (string_dec line line); [|done]
           end;
    reflexivity.
Qed.

(** X19. For every missing system judgment of a gold example the warning
    line is printed twice, once for each of the two tallies the example is
    scored against: the number of lines ["Missing output for <id>"] is twice
    the number of judgments of the example that the system lacks. *)
Theorem missing_output_is_printed_twice
    (gold_annotations system_annotations : gmap string Annotation)
    (example_id : string) (gold_annotation : Annotation)
    (Hgold : gold_annotations !! example_id = Some gold_annotation) :
  ∃ out scores system_annotations',
    calculate_scores gold_annotations system_annotations
      = mkRun out (Returns (scores, system_annotations'))
    ∧ Z.of_nat (count_occ string_dec out ("Missing output for " ++ example_id))
      = 2 * missing_judgments
              (default Annotation_init (system_annotations !! example_id)).
Proof.
  destruct (calculate_scores_spec gold_annotations system_annotations)
    as (scores & sys' & Hrun & _ & _ & _).
  eexists _, scores, sys'. split; [exact Hrun|].
  set (line := "Missing output for " ++ example_id).
  set (f := example_lines (sys_get system_annotations)).
  assert (Hperm : flat_map f (map_to_list gold_annotations)
                  ≡ₚ flat_map f ((example_id, gold_annotation)
                                  :: map_to_list (delete example_id gold_annotations))).
  { apply Permutation_flat_map. symmetry. by apply map_to_list_delete. }
  rewrite (proj1 (Permutation_count_occ string_dec _ _) Hperm line).
  cbn [flat_map]. rewrite count_occ_app, Nat2Z.inj_add.
  assert (Hrest : count_occ string_dec
            (flat_map f (map_to_list (delete example_id gold_annotations))) line
            = 0%nat).
  { apply count_occ_not_In. intros ([id g] & Hin & Hline)%in_flat_map.
    apply list_elem_of_In, elem_of_map_to_list in Hin.
    apply example_lines_of_id in Hline. simpl in Hline.
    apply missing_line_inj in Hline as <-.
    by rewrite lookup_delete_eq in Hin. }
  rewrite Hrest.
  pose proof (example_lines_count (sys_get system_annotations)
                (example_id, gold_annotation)) as Hcount.
  cbn [fst] in Hcount. fold line in Hcount. fold f in Hcount.
  unfold sys_get in Hcount. lia.
Qed.

(** An instance of X19: example 2 of [gold_two] has no system entry. *)
Lemma missing_output_twice_witness :
  gold_two !! "2" = Some (mkAnnotation (Some MASCULINE) (Some false) (Some true))
  ∧ ∃ out scores system_annotations',
      calculate_scores gold_two system_one
        = mkRun out (Returns (scores, system_annotations'))
      ∧ Z.of_nat (count_occ string_dec out "Missing output for 2") = 4.
Proof.
  assert (H : gold_two !! "2"
              = Some (mkAnnotation (Some MASCULINE) (Some false) (Some true)))
    by reflexivity.
  split; [exact H|].
  exact (missing_output_is_printed_twice gold_two system_one "2" _ H).
Defined.
